(** * A shallow embedding of the Sony IMX258 V4L2 sensor driver
    ([drivers/media/i2c/imx258-soho.c]), with the mainline driver
    ([imx258.c]) where it is the sibling implementation.

    Integers are [Z] with the C widths written out where the code can
    wrap.  The I2C bus and the runtime-PM core are external collaborators:
    every call to them is recorded in the device's [trace] and answered by
    an environment function [env], so failures can be injected at any call. *)

From Stdlib Require Import ZArith List Lia Bool.
Import ListNotations.
Open Scope Z_scope.

(** ** Constants *)

Definition IMX258_REG_VALUE_08BIT : Z := 1.
Definition IMX258_REG_VALUE_16BIT : Z := 2.

Definition IMX258_REG_MODE_SELECT : Z := 0x0100.
Definition IMX258_MODE_STANDBY : Z := 0x00.
Definition IMX258_MODE_STREAMING : Z := 0x01.

Definition IMX258_REG_ORIENTATION : Z := 0x101.

(** Pixel rate is fixed at (518400000/2) for all the modes. *)
Definition IMX258_PIXEL_RATE : Z := 518400000 / 2.

Definition IMX258_REG_FRAME_LENGTH : Z := 0x0340.
Definition IMX258_FRAME_LENGTH_MAX : Z := 0xffdc.

Definition IMX258_LONG_EXP_SHIFT_MAX : Z := 7.
Definition IMX258_LONG_EXP_SHIFT_REG : Z := 0x3100.

Definition IMX258_REG_EXPOSURE : Z := 0x0202.
Definition IMX258_EXPOSURE_OFFSET : Z := 22.

Definition IMX258_REG_ANALOG_GAIN : Z := 0x0204.

Definition IMX258_REG_GR_DIGITAL_GAIN : Z := 0x020e.
Definition IMX258_REG_R_DIGITAL_GAIN : Z := 0x0210.
Definition IMX258_REG_B_DIGITAL_GAIN : Z := 0x0212.
Definition IMX258_REG_GB_DIGITAL_GAIN : Z := 0x0214.

Definition IMX258_REG_TEST_PATTERN : Z := 0x0600.
Definition IMX258_TEST_PATTERN_DISABLE : Z := 0.
Definition IMX258_TEST_PATTERN_SOLID_COLOR : Z := 1.
Definition IMX258_TEST_PATTERN_COLOR_BARS : Z := 2.
Definition IMX258_TEST_PATTERN_GREY_COLOR : Z := 3.
Definition IMX258_TEST_PATTERN_PN9 : Z := 4.
Definition IMX258_REG_TEST_PATTERN_R : Z := 0x0602.
Definition IMX258_REG_TEST_PATTERN_GR : Z := 0x0604.
Definition IMX258_REG_TEST_PATTERN_B : Z := 0x0606.
Definition IMX258_REG_TEST_PATTERN_GB : Z := 0x0608.

Definition imx258_test_pattern_val : list Z :=
  [IMX258_TEST_PATTERN_DISABLE; IMX258_TEST_PATTERN_COLOR_BARS;
   IMX258_TEST_PATTERN_SOLID_COLOR; IMX258_TEST_PATTERN_GREY_COLOR;
   IMX258_TEST_PATTERN_PN9].

(** Error numbers, returned negated as in the kernel. *)
Definition EIO : Z := 5.
Definition EINVAL : Z := 22.

(** Media bus codes of the 10-bit Bayer formats. *)
Definition MEDIA_BUS_FMT_SBGGR10_1X10 : Z := 0x3007.
Definition MEDIA_BUS_FMT_SGRBG10_1X10 : Z := 0x300a.
Definition MEDIA_BUS_FMT_SGBRG10_1X10 : Z := 0x300e.
Definition MEDIA_BUS_FMT_SRGGB10_1X10 : Z := 0x300f.

(** C integer widths. *)
Definition u32 (z : Z) : Z := z mod 2 ^ 32.
Definition u64 (z : Z) : Z := z mod 2 ^ 64.
Definition s32 (z : Z) : Z := (z + 2 ^ 31) mod 2 ^ 32 - 2 ^ 31.

(** ** Register tables and modes *)

Record imx258_reg := R { address : Z; val : Z }.

Definition mode_common_regs : list imx258_reg := [
  R 0x0136 0x18; R 0x0137 0x00; R 0x3051 0x00; R 0x6b11 0xcf;
  R 0x7ff0 0x08; R 0x7ff1 0x0f; R 0x7ff2 0x08; R 0x7ff3 0x1b;
  R 0x7ff4 0x23; R 0x7ff5 0x60; R 0x7ff6 0x00; R 0x7ff7 0x01;
  R 0x7ff8 0x00; R 0x7ff9 0x78; R 0x7ffa 0x01; R 0x7ffb 0x00;
  R 0x7ffc 0x00; R 0x7ffd 0x00; R 0x7ffe 0x00; R 0x7fff 0x03;
  R 0x7f76 0x03; R 0x7f77 0xfe; R 0x7fa8 0x03; R 0x7fa9 0xfe;
  R 0x7b24 0x81; R 0x7b25 0x01; R 0x6564 0x07; R 0x6b0d 0x41;
  R 0x653d 0x04; R 0x6b05 0x8c; R 0x6b06 0xf9; R 0x6b08 0x65;
  R 0x6b09 0xfc; R 0x6b0a 0xcf; R 0x6b0b 0xd2; R 0x6700 0x0e;
  R 0x6707 0x0e; R 0x5f04 0x00; R 0x5f05 0xed ].

Definition mode_4208x3120_regs : list imx258_reg := [
  R 0x0112 0x0a; R 0x0113 0x0a; R 0x0114 0x01; R 0x0301 0x05;
  R 0x0303 0x04; R 0x0305 0x04; R 0x0306 0x00; R 0x0307 0xd8;
  R 0x0309 0x0a; R 0x030b 0x01; R 0x030d 0x02; R 0x030e 0x00;
  R 0x030f 0xd8; R 0x0310 0x00; R 0x0820 0x0a; R 0x0821 0x20;
  R 0x0822 0x00; R 0x0823 0x00; R 0x4648 0x7f; R 0x9104 0x04;
  R 0x0342 0x14; R 0x0343 0xe8; R 0x0344 0x00; R 0x0345 0x00;
  R 0x0346 0x00; R 0x0347 0x00; R 0x0348 0x10; R 0x0349 0x6f;
  R 0x034a 0x0c; R 0x034b 0x2f; R 0x0381 0x01; R 0x0383 0x01;
  R 0x0385 0x01; R 0x0387 0x01; R 0x0900 0x00; R 0x0901 0x11;
  R 0x0401 0x00; R 0x0404 0x00; R 0x0405 0x10; R 0x0408 0x00;
  R 0x0409 0x00; R 0x040a 0x00; R 0x040b 0x00; R 0x040c 0x10;
  R 0x040d 0x70; R 0x040e 0x0c; R 0x040f 0x30; R 0x3038 0x00;
  R 0x303a 0x00; R 0x303b 0x10; R 0x300d 0x00; R 0x034c 0x10;
  R 0x034d 0x70; R 0x034e 0x0c; R 0x034f 0x30; R 0x020e 0x01;
  R 0x020f 0x00; R 0x0210 0x01; R 0x0211 0x00; R 0x0212 0x01;
  R 0x0213 0x00; R 0x0214 0x01; R 0x0215 0x00; R 0x7bcd 0x00;
  R 0x94dc 0x20; R 0x94dd 0x20; R 0x94de 0x20; R 0x95dc 0x20;
  R 0x95dd 0x20; R 0x95de 0x20; R 0x7fb0 0x00; R 0x9010 0x3e;
  R 0x9419 0x50; R 0x941b 0x50; R 0x9519 0x50; R 0x951b 0x50;
  R 0x3030 0x01; R 0x3032 0x01; R 0x0220 0x00 ].

Definition mode_2048x1560_regs : list imx258_reg := [
  R 0x0112 0x0a; R 0x0113 0x0a; R 0x0114 0x01; R 0x0301 0x05;
  R 0x0303 0x02; R 0x0305 0x04; R 0x0306 0x00; R 0x0307 0xd8;
  R 0x0309 0x0a; R 0x030b 0x01; R 0x030d 0x02; R 0x030e 0x00;
  R 0x030f 0xd8; R 0x0310 0x00; R 0x0820 0x0a; R 0x0821 0x20;
  R 0x0822 0x00; R 0x0823 0x00; R 0x4648 0x7f; R 0x9104 0x00;
  R 0x0342 0x14; R 0x0343 0xe8; R 0x0344 0x00; R 0x0345 0x00;
  R 0x0346 0x00; R 0x0347 0x00; R 0x0348 0x10; R 0x0349 0x6f;
  R 0x034a 0x0c; R 0x034b 0x2f; R 0x0381 0x01; R 0x0383 0x01;
  R 0x0385 0x01; R 0x0387 0x01; R 0x0900 0x01; R 0x0901 0x12;
  R 0x0401 0x01; R 0x0404 0x00; R 0x0405 0x20; R 0x0408 0x00;
  R 0x0409 0x02; R 0x040a 0x00; R 0x040b 0x00; R 0x040c 0x10;
  R 0x040d 0x68; R 0x040e 0x06; R 0x040f 0x18; R 0x3038 0x00;
  R 0x303a 0x00; R 0x303b 0x10; R 0x300d 0x00; R 0x034c 0x08;
  R 0x034d 0x34; R 0x034e 0x06; R 0x034f 0x18; R 0x020e 0x01;
  R 0x020f 0x00; R 0x0210 0x01; R 0x0211 0x00; R 0x0212 0x01;
  R 0x0213 0x00; R 0x0214 0x01; R 0x0215 0x00; R 0x7bcd 0x01;
  R 0x94dc 0x20; R 0x94dd 0x20; R 0x94de 0x20; R 0x95dc 0x20;
  R 0x95dd 0x20; R 0x95de 0x20; R 0x7fb0 0x00; R 0x9010 0x3e;
  R 0x9419 0x50; R 0x941b 0x50; R 0x9519 0x50; R 0x951b 0x50;
  R 0x3030 0x00; R 0x3032 0x00; R 0x0220 0x00 ].

Definition mode_1920x1080_regs : list imx258_reg := [
  R 0x0112 0x0a; R 0x0113 0x0a; R 0x0114 0x01; R 0x0301 0x05;
  R 0x0303 0x02; R 0x0305 0x04; R 0x0306 0x00; R 0x0307 0xd8;
  R 0x0309 0x0a; R 0x030b 0x01; R 0x030d 0x02; R 0x030e 0x00;
  R 0x030f 0xd8; R 0x0310 0x00; R 0x0820 0x0a; R 0x0821 0x20;
  R 0x0822 0x00; R 0x0823 0x00; R 0x4648 0x7f; R 0x9104 0x00;
  R 0x0342 0x14; R 0x0343 0xe8; R 0x0344 0x00; R 0x0345 0x00;
  R 0x0346 0x00; R 0x0347 0x00; R 0x0348 0x10; R 0x0349 0x6f;
  R 0x034a 0x0c; R 0x034b 0x2f; R 0x0381 0x01; R 0x0383 0x01;
  R 0x0385 0x01; R 0x0387 0x01; R 0x0900 0x01; R 0x0901 0x12;
  R 0x0401 0x01; R 0x0404 0x00; R 0x0405 0x20; R 0x0408 0x00;
  R 0x0409 0x5c; R 0x040a 0x00; R 0x040b 0xf0; R 0x040c 0x0f;
  R 0x040d 0x00; R 0x040e 0x04; R 0x040f 0x38; R 0x3038 0x00;
  R 0x303a 0x00; R 0x303b 0x10; R 0x300d 0x00; R 0x034c 0x07;
  R 0x034d 0x80; R 0x034e 0x04; R 0x034f 0x38; R 0x020e 0x01;
  R 0x020f 0xf0; R 0x0210 0x01; R 0x0211 0xf0; R 0x0212 0x01;
  R 0x0213 0xf0; R 0x0214 0x01; R 0x0215 0xf0; R 0x7bcd 0x01;
  R 0x94dc 0x20; R 0x94dd 0x20; R 0x94de 0x20; R 0x95dc 0x20;
  R 0x95dd 0x20; R 0x95de 0x20; R 0x7fb0 0x00; R 0x9010 0x3e;
  R 0x9419 0x50; R 0x941b 0x50; R 0x9519 0x50; R 0x951b 0x50;
  R 0x3030 0x00; R 0x3032 0x00; R 0x0220 0x00 ].

Record v4l2_fract := { numerator : Z; denominator : Z }.

(** A mode; the analog crop rectangle is left out, no claim reads it. *)
Record imx258_mode := {
  width : Z;
  height : Z;
  line_length_pix : Z;
  timeperframe_min : v4l2_fract;
  timeperframe_default : v4l2_fract;
  reg_list : list imx258_reg
}.

Definition supported_modes_10bit : list imx258_mode := [
  {| width := 4208; height := 3120; line_length_pix := 5352;
     timeperframe_min := {| numerator := 100; denominator := 1000 |};
     timeperframe_default := {| numerator := 100; denominator := 1000 |};
     reg_list := mode_4208x3120_regs |};
  {| width := 2048; height := 1560; line_length_pix := 5352;
     timeperframe_min := {| numerator := 100; denominator := 4000 |};
     timeperframe_default := {| numerator := 100; denominator := 3000 |};
     reg_list := mode_2048x1560_regs |};
  {| width := 1920; height := 1080; line_length_pix := 5352;
     timeperframe_min := {| numerator := 100; denominator := 4000 |};
     timeperframe_default := {| numerator := 100; denominator := 3000 |};
     reg_list := mode_1920x1080_regs |} ].

(** The table of codes: 4 entries per format, in the order
    no flip, h flip, v flip, h&v flips (only the 10-bit block is compiled). *)
Definition codes : list Z :=
  [MEDIA_BUS_FMT_SRGGB10_1X10; MEDIA_BUS_FMT_SGRBG10_1X10;
   MEDIA_BUS_FMT_SGBRG10_1X10; MEDIA_BUS_FMT_SBGGR10_1X10].

(** ** Pure timing computations *)

(** [imx258_get_frame_length]: a u64 product divided with [do_div],
    saturated at [IMX258_FRAME_LENGTH_MAX], then raised to the mode height
    by [max_t(unsigned int, ...)].  [do_div(n, base)] stores its divisor in
    a [uint32_t __base], so the u64 product [denominator * line_length_pix]
    is truncated to 32 bits before dividing.  A divisor that truncates to 0
    is undefined in C; Rocq's [Z.div] gives 0 there, and the theorems below
    exclude it. *)
Definition imx258_get_frame_length (mode : imx258_mode) (tpf : v4l2_fract) : Z :=
  let frame_length := u64 (numerator tpf * IMX258_PIXEL_RATE) in
  let base := u32 (u64 (denominator tpf * line_length_pix mode)) in
  let frame_length := frame_length / base in
  let frame_length :=
    if frame_length >? IMX258_FRAME_LENGTH_MAX
    then IMX258_FRAME_LENGTH_MAX else frame_length in
  Z.max (u32 frame_length) (u32 (height mode)).

(** The loop of [imx258_set_frame_length]:
    [while (val > IMX258_FRAME_LENGTH_MAX) { shift++; val >>= 1; }].
    [val] is an unsigned int, so 32 halvings always end the loop; the fuel
    only makes the recursion structural. *)
Fixpoint long_exp_loop (fuel : nat) (shift v : Z) : Z * Z :=
  match fuel with
  | O => (shift, v)
  | S fuel' =>
      if v >? IMX258_FRAME_LENGTH_MAX
      then long_exp_loop fuel' (shift + 1) (Z.shiftr v 1)
      else (shift, v)
  end.

(** (long_exp_shift, value written to the frame length register). *)
Definition frame_length_shift (v : Z) : Z * Z := long_exp_loop 32 0 v.

(** [imx258_get_format_code] of imx258-soho.c: search the code, default
    to index 0, keep the block, OR in the flip bits. *)
Fixpoint code_index (l : list Z) (code : Z) : nat :=
  match l with
  | [] => 0
  | c :: l' => if c =? code then 0 else S (code_index l' code)
  end.

Definition imx258_get_format_code (hflip vflip : Z) (code : Z) : Z :=
  let i := Z.of_nat (code_index codes code) in
  let i := if i >=? Z.of_nat (length codes) then 0 else i in
  let i := Z.lor (Z.lor (Z.land i (Z.lnot 3))
                        (if vflip =? 0 then 0 else 2))
                 (if hflip =? 0 then 0 else 1) in
  nth (Z.to_nat i) codes 0.

(** ** Device state *)

Inductive ctrl_id :=
| CID_PIXEL_RATE | CID_VBLANK | CID_HBLANK | CID_EXPOSURE
| CID_ANALOGUE_GAIN | CID_DIGITAL_GAIN | CID_HFLIP | CID_VFLIP
| CID_TEST_PATTERN | CID_TEST_PATTERN_RED | CID_TEST_PATTERN_GREENR
| CID_TEST_PATTERN_BLUE | CID_TEST_PATTERN_GREENB.

Scheme Equality for ctrl_id.

(** The fields of a [struct v4l2_ctrl] the driver reads. *)
Record v4l2_ctrl := {
  minimum : Z;
  maximum : Z;
  step : Z;
  default_value : Z;
  cur : Z  (* ctrl->val *)
}.

(** Calls to the external collaborators: an I2C register write
    ([i2c_master_send] of register [reg], [len] data bytes, value [v]) and
    the runtime-PM calls. *)
Inductive bus_op :=
| I2cSend (reg len v : Z)
| PmGetSync
| PmPutNoidle
| PmPut
| PmGetIfInUse.

Record imx258 := {
  mode : imx258_mode;
  ctrls : ctrl_id -> v4l2_ctrl;
  streaming : bool;
  common_regs_written : bool;
  long_exp_shift : Z;
  flips_grabbed : bool;
  trace : list bus_op  (* collaborator calls issued so far, oldest first *)
}.

Definition set_trace (t : list bus_op) (s : imx258) : imx258 :=
  {| mode := mode s; ctrls := ctrls s; streaming := streaming s;
     common_regs_written := common_regs_written s;
     long_exp_shift := long_exp_shift s; flips_grabbed := flips_grabbed s;
     trace := t |}.

Definition set_ctrls (c : ctrl_id -> v4l2_ctrl) (s : imx258) : imx258 :=
  {| mode := mode s; ctrls := c; streaming := streaming s;
     common_regs_written := common_regs_written s;
     long_exp_shift := long_exp_shift s; flips_grabbed := flips_grabbed s;
     trace := trace s |}.

Definition set_streaming (b : bool) (s : imx258) : imx258 :=
  {| mode := mode s; ctrls := ctrls s; streaming := b;
     common_regs_written := common_regs_written s;
     long_exp_shift := long_exp_shift s; flips_grabbed := flips_grabbed s;
     trace := trace s |}.

Definition set_common_regs_written (b : bool) (s : imx258) : imx258 :=
  {| mode := mode s; ctrls := ctrls s; streaming := streaming s;
     common_regs_written := b;
     long_exp_shift := long_exp_shift s; flips_grabbed := flips_grabbed s;
     trace := trace s |}.

Definition set_long_exp_shift (n : Z) (s : imx258) : imx258 :=
  {| mode := mode s; ctrls := ctrls s; streaming := streaming s;
     common_regs_written := common_regs_written s;
     long_exp_shift := n; flips_grabbed := flips_grabbed s;
     trace := trace s |}.

Definition set_flips_grabbed (b : bool) (s : imx258) : imx258 :=
  {| mode := mode s; ctrls := ctrls s; streaming := streaming s;
     common_regs_written := common_regs_written s;
     long_exp_shift := long_exp_shift s; flips_grabbed := b;
     trace := trace s |}.

Definition update_ctrl (c : ctrl_id -> v4l2_ctrl) (id : ctrl_id)
    (x : v4l2_ctrl) : ctrl_id -> v4l2_ctrl :=
  fun id' => if ctrl_id_beq id id' then x else c id'.

(** ** A state monad over the device *)

Definition M (A : Type) := imx258 -> A * imx258.

Definition ret {A} (a : A) : M A := fun s => (a, s).
Definition bind {A B} (m : M A) (k : A -> M B) : M B :=
  fun s => let (a, s') := m s in k a s'.
Definition gets {A} (f : imx258 -> A) : M A := fun s => (f s, s).
Definition modify (f : imx258 -> imx258) : M unit := fun s => (tt, f s).

Notation "x <- m ;; k" := (bind m (fun x => k))
  (at level 61, m at next level, right associativity).
Notation "m ;;; k" := (bind m (fun _ => k))
  (at level 61, right associativity).

Section Driver.

(** The answer of the bus or the PM core to the [n]-th collaborator call
    of the device. *)
Variable env : nat -> bus_op -> Z.

Definition call (op : bus_op) : M Z :=
  fun s => (env (length (trace s)) op, set_trace (trace s ++ [op]) s).

(** [imx258_write_reg]: the value bytes and the register address go out in
    one [i2c_master_send] of [len + 2] bytes. *)
Definition imx258_write_reg (reg len v : Z) : M Z :=
  if len >? 4 then ret (- EINVAL) else
  n <- call (I2cSend reg len v) ;;
  if n =? len + 2 then ret 0 else ret (- EIO).

(** [imx258_write_regs]: stop at the first failing register. *)
Fixpoint imx258_write_regs (regs : list imx258_reg) : M Z :=
  match regs with
  | [] => ret 0
  | r :: regs' =>
      ret0 <- imx258_write_reg (address r) 1 (val r) ;;
      if ret0 =? 0 then imx258_write_regs regs' else ret ret0
  end.

Definition ctrl_val (id : ctrl_id) : M Z := gets (fun s => cur (ctrls s id)).

(** Modelled from the spec: [__v4l2_ctrl_modify_range] of the V4L2 control
    framework (not part of the sources read here).  The spec: "control
    range is updated in place, preserving current value unless it now
    exceeds the new max (then clamp down)". *)
Definition v4l2_ctrl_modify_range (id : ctrl_id) (mn mx st def : Z) : M unit :=
  modify (fun s =>
    let c := ctrls s id in
    set_ctrls (update_ctrl (ctrls s) id
      {| minimum := mn; maximum := mx; step := st; default_value := def;
         cur := if cur c >? mx then mx else cur c |}) s).

(** [imx258_adjust_exposure_range]: [exposure_max] is an [int] computed
    from the unsigned [mode->height]. *)
Definition imx258_adjust_exposure_range : M unit :=
  s <- gets (fun s => s) ;;
  let exposure := ctrls s CID_EXPOSURE in
  let exposure_max :=
    s32 (u32 (height (mode s) + cur (ctrls s CID_VBLANK)
              - Z.shiftl IMX258_EXPOSURE_OFFSET (long_exp_shift s))) in
  let exposure_def := Z.min exposure_max (cur exposure) in
  v4l2_ctrl_modify_range CID_EXPOSURE (minimum exposure) exposure_max
    (step exposure) exposure_def.

(** [imx258_set_frame_length]. *)
Definition imx258_set_frame_length (v : Z) : M Z :=
  let (shift, v') := frame_length_shift v in
  modify (set_long_exp_shift shift) ;;;
  ret0 <- imx258_write_reg IMX258_REG_FRAME_LENGTH IMX258_REG_VALUE_16BIT v' ;;
  if negb (ret0 =? 0) then ret ret0 else
  imx258_write_reg IMX258_LONG_EXP_SHIFT_REG IMX258_REG_VALUE_08BIT shift.


(** [imx258_set_ctrl]; the framework has already stored the new value in
    [ctrl->val] when it calls this. *)
Definition imx258_set_ctrl (id : ctrl_id) : M Z :=
  (if ctrl_id_beq id CID_VBLANK then imx258_adjust_exposure_range
   else ret tt) ;;;
  in_use <- call PmGetIfInUse ;;
  if in_use =? 0 then ret 0 else
  v <- ctrl_val id ;;
  ret0 <-
    match id with
    | CID_ANALOGUE_GAIN =>
        imx258_write_reg IMX258_REG_ANALOG_GAIN IMX258_REG_VALUE_16BIT v
    | CID_EXPOSURE =>
        shift <- gets long_exp_shift ;;
        imx258_write_reg IMX258_REG_EXPOSURE IMX258_REG_VALUE_16BIT
          (Z.shiftr v shift)
    | CID_DIGITAL_GAIN =>
        (* each write overwrites [ret]; only the last one is returned *)
        imx258_write_reg IMX258_REG_GR_DIGITAL_GAIN IMX258_REG_VALUE_16BIT v ;;;
        imx258_write_reg IMX258_REG_R_DIGITAL_GAIN IMX258_REG_VALUE_16BIT v ;;;
        imx258_write_reg IMX258_REG_B_DIGITAL_GAIN IMX258_REG_VALUE_16BIT v ;;;
        imx258_write_reg IMX258_REG_GB_DIGITAL_GAIN IMX258_REG_VALUE_16BIT v
    | CID_TEST_PATTERN =>
        imx258_write_reg IMX258_REG_TEST_PATTERN IMX258_REG_VALUE_16BIT
          (nth (Z.to_nat v) imx258_test_pattern_val 0)
    | CID_TEST_PATTERN_RED =>
        imx258_write_reg IMX258_REG_TEST_PATTERN_R IMX258_REG_VALUE_16BIT v
    | CID_TEST_PATTERN_GREENR =>
        imx258_write_reg IMX258_REG_TEST_PATTERN_GR IMX258_REG_VALUE_16BIT v
    | CID_TEST_PATTERN_BLUE =>
        imx258_write_reg IMX258_REG_TEST_PATTERN_B IMX258_REG_VALUE_16BIT v
    | CID_TEST_PATTERN_GREENB =>
        imx258_write_reg IMX258_REG_TEST_PATTERN_GB IMX258_REG_VALUE_16BIT v
    | CID_HFLIP | CID_VFLIP =>
        h <- ctrl_val CID_HFLIP ;;
        vf <- ctrl_val CID_VFLIP ;;
        imx258_write_reg IMX258_REG_ORIENTATION 1 (Z.lor h (Z.shiftl vf 1))
    | CID_VBLANK =>
        m <- gets mode ;;
        imx258_set_frame_length (u32 (height m + v))
    | _ => ret (- EINVAL)  (* "ctrl ... is not handled" *)
    end ;;
  call PmPut ;;;
  ret ret0.

(** Modelled from the spec: setting a control through the V4L2 control
    framework (not part of the sources read here).  The spec: "the new
    value is recorded", then the driver's [s_ctrl] decides whether the
    register write is issued. *)
Definition v4l2_s_ctrl (id : ctrl_id) (x : Z) : M Z :=
  modify (fun s =>
    let c := ctrls s id in
    set_ctrls (update_ctrl (ctrls s) id
      {| minimum := minimum c; maximum := maximum c; step := step c;
         default_value := default_value c; cur := x |}) s) ;;;
  imx258_set_ctrl id.

(** The writable controls of the handler, in creation order
    ([imx258_init_controls]); pixel rate and hblank are read-only. *)
Definition imx258_handler_ctrls : list ctrl_id :=
  [CID_VBLANK; CID_EXPOSURE; CID_ANALOGUE_GAIN; CID_DIGITAL_GAIN;
   CID_HFLIP; CID_VFLIP; CID_TEST_PATTERN; CID_TEST_PATTERN_RED;
   CID_TEST_PATTERN_GREENR; CID_TEST_PATTERN_BLUE; CID_TEST_PATTERN_GREENB].

(** Modelled from the spec: [__v4l2_ctrl_handler_setup] of the V4L2
    control framework (not part of the sources read here).  The spec:
    "replay every ControlBank value (bulk control commit)"; the replay
    calls [s_ctrl] on each control and stops at the first error. *)
Fixpoint v4l2_ctrl_handler_setup (l : list ctrl_id) : M Z :=
  match l with
  | [] => ret 0
  | id :: l' =>
      ret0 <- imx258_set_ctrl id ;;
      if ret0 =? 0 then v4l2_ctrl_handler_setup l' else ret ret0
  end.

(** [imx258_start_streaming]. *)
Definition imx258_start_streaming : M Z :=
  written <- gets common_regs_written ;;
  ret0 <-
    (if written then ret 0 else
     r <- imx258_write_regs mode_common_regs ;;
     if r =? 0 then modify (set_common_regs_written true) ;;; ret 0
     else ret r) ;;
  if negb (ret0 =? 0) then ret ret0 else
  m <- gets mode ;;
  ret0 <- imx258_write_regs (reg_list m) ;;
  if negb (ret0 =? 0) then ret ret0 else
  ret0 <- v4l2_ctrl_handler_setup imx258_handler_ctrls ;;
  if negb (ret0 =? 0) then ret ret0 else
  imx258_write_reg IMX258_REG_MODE_SELECT IMX258_REG_VALUE_08BIT
    IMX258_MODE_STREAMING.

(** [imx258_stop_streaming]: a failed write is only logged. *)
Definition imx258_stop_streaming : M unit :=
  ret0 <- imx258_write_reg IMX258_REG_MODE_SELECT IMX258_REG_VALUE_08BIT
            IMX258_MODE_STANDBY ;;
  ret tt.

(** [imx258_set_stream]; [enable] is the C [int], compared with the
    [bool] field [streaming]. *)
Definition imx258_set_stream (enable : Z) : M Z :=
  st <- gets streaming ;;
  if Z.b2z st =? enable then ret 0 else
  if negb (enable =? 0) then
    r <- call PmGetSync ;;
    if r <? 0 then call PmPutNoidle ;;; ret r else
    r <- imx258_start_streaming ;;
    if negb (r =? 0) then call PmPut ;;; ret r else
    modify (set_streaming true) ;;;
    modify (set_flips_grabbed true) ;;;
    ret r
  else
    imx258_stop_streaming ;;;
    call PmPut ;;;
    modify (set_streaming false) ;;;
    modify (set_flips_grabbed false) ;;;
    ret 0.

(** The mainline driver's [imx258_update_digital_gain] (sibling of the
    digital gain case above): it returns at the first failing channel. *)
Definition mainline_imx258_update_digital_gain (v : Z) : M Z :=
  ret0 <- imx258_write_reg IMX258_REG_GR_DIGITAL_GAIN IMX258_REG_VALUE_16BIT v ;;
  if negb (ret0 =? 0) then ret ret0 else
  ret0 <- imx258_write_reg IMX258_REG_GB_DIGITAL_GAIN IMX258_REG_VALUE_16BIT v ;;
  if negb (ret0 =? 0) then ret ret0 else
  ret0 <- imx258_write_reg IMX258_REG_R_DIGITAL_GAIN IMX258_REG_VALUE_16BIT v ;;
  if negb (ret0 =? 0) then ret ret0 else
  ret0 <- imx258_write_reg IMX258_REG_B_DIGITAL_GAIN IMX258_REG_VALUE_16BIT v ;;
  if negb (ret0 =? 0) then ret ret0 else
  ret 0.

End Driver.

(** ** The stream start sequence as the spec states it *)

Section StartSpec.

Variable env : nat -> bus_op -> Z.

(** Steps run in order; the first failing step aborts the sequence and its
    error is the result. *)
Fixpoint run_steps (steps : list (M Z)) : M Z :=
  match steps with
  | [] => ret 0
  | st :: rest => r <- st ;; if r =? 0 then run_steps rest else ret r
  end.

(** Step 1: the common registers, unless already written this power cycle. *)
Definition step_common_regs : M Z :=
  written <- gets common_regs_written ;;
  if written then ret 0 else
  r <- imx258_write_regs env mode_common_regs ;;
  if r =? 0 then modify (set_common_regs_written true) ;;; ret 0 else ret r.

(** Step 2: the active mode's register sequence. *)
Definition step_mode_regs : M Z :=
  m <- gets mode ;; imx258_write_regs env (reg_list m).

(** Step 3: the bulk control commit. *)
Definition step_ctrl_commit : M Z :=
  v4l2_ctrl_handler_setup env imx258_handler_ctrls.

(** Step 4: mode-select set to streaming. *)
Definition step_stream_on : M Z :=
  imx258_write_reg env IMX258_REG_MODE_SELECT IMX258_REG_VALUE_08BIT
    IMX258_MODE_STREAMING.

(** Start from STANDBY: power up, run the four steps in order; on success
    the device is STREAMING (flips locked), on any failure it stays in
    STANDBY and the error is returned. *)
Definition stream_start_spec : M Z :=
  r <- call env PmGetSync ;;
  if r <? 0 then call env PmPutNoidle ;;; ret r else
  r <- run_steps [step_common_regs; step_mode_regs; step_ctrl_commit;
                  step_stream_on] ;;
  if r =? 0 then
    modify (set_streaming true) ;;; modify (set_flips_grabbed true) ;;; ret 0
  else call env PmPut ;;; ret r.

End StartSpec.

(** Ops a computation may issue: it only appends collaborator calls that
    satisfy [P] to the trace. *)
Definition only_ops (P : bus_op -> Prop) {A} (m : M A) : Prop :=
  forall s, exists ops, trace (snd (m s)) = trace s ++ ops /\ Forall P ops.

(** A collaborator call other than a write to the mode-select register. *)
Definition not_mode_select (op : bus_op) : Prop :=
  match op with
  | I2cSend reg _ _ => reg <> IMX258_REG_MODE_SELECT
  | _ => True
  end.

(** ** Concrete inputs *)

(** The controls as [imx258_init_controls] creates them (ranges and
    defaults from the [v4l2_ctrl_new_std] calls). *)
Definition std_ctrl (mn mx st def : Z) : v4l2_ctrl :=
  {| minimum := mn; maximum := mx; step := st; default_value := def;
     cur := def |}.

Definition init_ctrls (id : ctrl_id) : v4l2_ctrl :=
  match id with
  | CID_PIXEL_RATE =>
      std_ctrl IMX258_PIXEL_RATE IMX258_PIXEL_RATE 1 IMX258_PIXEL_RATE
  | CID_VBLANK => std_ctrl 0 0xffff 1 0
  | CID_HBLANK => std_ctrl 0 0xffff 1 0
  | CID_EXPOSURE => std_ctrl 20 (IMX258_FRAME_LENGTH_MAX - 22) 1 0x640
  | CID_ANALOGUE_GAIN => std_ctrl 0 978 1 0
  | CID_DIGITAL_GAIN => std_ctrl 0x0100 4096 1 1024
  | CID_HFLIP | CID_VFLIP => std_ctrl 0 1 1 0
  | CID_TEST_PATTERN => std_ctrl 0 4 1 0
  | _ => std_ctrl 0 0x0fff 1 0x0fff
  end.

Definition mode_4208x3120 : imx258_mode := nth 0 supported_modes_10bit
  {| width := 0; height := 0; line_length_pix := 0;
     timeperframe_min := {| numerator := 0; denominator := 1 |};
     timeperframe_default := {| numerator := 0; denominator := 1 |};
     reg_list := [] |}.

(** A device in standby on the default mode, nothing written yet. *)
Definition dev_standby : imx258 :=
  {| mode := mode_4208x3120; ctrls := init_ctrls; streaming := false;
     common_regs_written := false; long_exp_shift := 0;
     flips_grabbed := false; trace := [] |}.

Definition dev_streaming : imx258 := set_streaming true dev_standby.

(** A bus on which every transfer completes, the device is powered and in
    use. *)
Definition env_ok (n : nat) (op : bus_op) : Z :=
  match op with
  | I2cSend _ len _ => len + 2
  | PmGetSync | PmGetIfInUse => 1
  | _ => 0
  end.

(** The same bus with the device idle: [pm_runtime_get_if_in_use] gives 0. *)
Definition env_idle (n : nat) (op : bus_op) : Z :=
  match op with
  | PmGetIfInUse => 0
  | _ => env_ok n op
  end.

(** The bus fails ([-EREMOTEIO]) every transfer to register [reg]. *)
Definition env_fail_reg (reg : Z) (n : nat) (op : bus_op) : Z :=
  match op with
  | I2cSend r len _ => if r =? reg then -121 else len + 2
  | _ => env_ok n op
  end.

(** ** Further driver operations *)

Definition IMX258_REG_CHIP_ID : Z := 0x0016.
Definition IMX258_CHIP_ID : Z := 0x0258.
Definition IMX258_DEFAULT_LINK_FREQ : Z := 450000000.
Definition IMX258_XCLR_MIN_DELAY_US : Z := 8000.
Definition IMX258_XCLR_DELAY_RANGE_US : Z := 1000.

(** Embedded metadata stream structure. *)
Definition IMX258_EMBEDDED_LINE_WIDTH : Z := 16384.
Definition IMX258_NUM_EMBEDDED_LINES : Z := 1.

(** [enum pad_types]. *)
Definition IMAGE_PAD : Z := 0.
Definition METADATA_PAD : Z := 1.
Definition NUM_PADS : Z := 2.

Definition IMX258_PIXEL_ARRAY_LEFT : Z := 0.
Definition IMX258_PIXEL_ARRAY_TOP : Z := 0.
Definition IMX258_PIXEL_ARRAY_WIDTH : Z := 4208.
Definition IMX258_PIXEL_ARRAY_HEIGHT : Z := 3120.

(** Values of the V4L2 and media-bus headers the driver uses. *)
Definition MEDIA_BUS_FMT_SENSOR_DATA : Z := 0x7002.
Definition V4L2_FIELD_NONE : Z := 1.
Definition V4L2_SUBDEV_FORMAT_TRY : Z := 0.
Definition V4L2_SUBDEV_FORMAT_ACTIVE : Z := 1.

(** *** Register access at the byte level *)

(** [put_unaligned_be16], [put_unaligned_be32] and [get_unaligned_be32]
    (the latter on a 4-byte buffer). *)
Definition put_unaligned_be16 (x : Z) : list Z :=
  [Z.land (Z.shiftr x 8) 0xff; Z.land x 0xff].

Definition put_unaligned_be32 (x : Z) : list Z :=
  [Z.land (Z.shiftr x 24) 0xff; Z.land (Z.shiftr x 16) 0xff;
   Z.land (Z.shiftr x 8) 0xff; Z.land x 0xff].

Definition get_unaligned_be32 (b : list Z) : Z :=
  Z.lor (Z.lor (Z.lor (Z.shiftl (nth 0 b 0) 24) (Z.shiftl (nth 1 b 0) 16))
               (Z.shiftl (nth 2 b 0) 8))
        (nth 3 b 0).

(** The [len + 2] bytes [imx258_write_reg] passes to [i2c_master_send]:
    [reg] is a u16 parameter, [val] a u32 one, and
    [val << (8 * (4 - len))] is computed in u32. *)
Definition imx258_write_reg_buf (reg len v : Z) : list Z :=
  let buf := put_unaligned_be16 (reg mod 2 ^ 16) ++
             put_unaligned_be32 (u32 (Z.shiftl (u32 v) (8 * (4 - len)))) in
  firstn (Z.to_nat (len + 2)) buf.

(** [addr_buf] of [imx258_read_reg]: [{ reg >> 8, reg & 0xff }] for the
    u16 [reg], stored as u8. *)
Definition imx258_read_addr_buf (reg : Z) : list Z :=
  [Z.land (Z.shiftr (reg mod 2 ^ 16) 8) 0xff; Z.land (reg mod 2 ^ 16) 0xff].

(** [imx258_read_reg].  [i2c_transfer] is answered by [xfer addr len] (the
    number of messages transferred) and the [i]-th byte received into
    [&data_buf[4 - len]] is [rx addr len i].  The result is the return
    value and [*val] afterwards (unchanged on error). *)
Definition imx258_read_reg (xfer : list Z -> Z -> Z)
    (rx : list Z -> Z -> nat -> Z) (reg len val : Z) : Z * Z :=
  if len >? 4 then (- EINVAL, val) else
  let addr_buf := imx258_read_addr_buf reg in
  let off := (4 - Z.to_nat len)%nat in
  let data_buf :=
    map (fun i => if (i <? off)%nat then 0 else rx addr_buf len (i - off)%nat)
        (seq 0 4) in
  if negb (xfer addr_buf len =? 2) then (- EIO, val) else
  (0, get_unaligned_be32 data_buf).

(** [imx258_identify_module]; its [val] is uninitialised, and only read
    after a successful [imx258_read_reg]. *)
Definition imx258_identify_module (xfer : list Z -> Z -> Z)
    (rx : list Z -> Z -> nat -> Z) : Z :=
  let (ret0, v) := imx258_read_reg xfer rx IMX258_REG_CHIP_ID
                     IMX258_REG_VALUE_16BIT 0 in
  if negb (ret0 =? 0) then ret0 else
  if negb (v =? IMX258_CHIP_ID) then - EIO else 0.

(** *** Formats and enumeration *)

(** [get_mode_table]: the mode list ([None] for NULL) and its length. *)
Definition get_mode_table (code : Z) : option (list imx258_mode) * Z :=
  if (code =? MEDIA_BUS_FMT_SRGGB10_1X10) || (code =? MEDIA_BUS_FMT_SGRBG10_1X10)
     || (code =? MEDIA_BUS_FMT_SGBRG10_1X10) || (code =? MEDIA_BUS_FMT_SBGGR10_1X10)
  then (Some supported_modes_10bit, Z.of_nat (length supported_modes_10bit))
  else (None, 0).

(** [imx258_enum_mbus_code]: the return value and the code reported.
    [pad] and [index] are u32 fields. *)
Definition imx258_enum_mbus_code (hflip vflip : Z) (pad index : Z)
    : Z * option Z :=
  if pad >=? NUM_PADS then (- EINVAL, None) else
  if pad =? IMAGE_PAD then
    if index >=? Z.of_nat (length codes) / 4 then (- EINVAL, None) else
    (0, Some (imx258_get_format_code hflip vflip
                (nth (Z.to_nat (index * 4)) codes 0)))
  else
    if index >? 0 then (- EINVAL, None) else
    (0, Some MEDIA_BUS_FMT_SENSOR_DATA).

Record v4l2_frame_size := {
  fse_min_width : Z; fse_max_width : Z;
  fse_min_height : Z; fse_max_height : Z
}.

(** [imx258_enum_frame_size]: the return value and the sizes reported.
    The two [_ => (- EINVAL, None)] arms are unreachable for a u32
    [index]: [num_modes] is 0 exactly when [mode_list] is NULL, and
    [index < num_modes] has been checked. *)
Definition imx258_enum_frame_size (hflip vflip : Z) (pad index code : Z)
    : Z * option v4l2_frame_size :=
  if pad >=? NUM_PADS then (- EINVAL, None) else
  if pad =? IMAGE_PAD then
    let (mode_list, num_modes) := get_mode_table code in
    if index >=? num_modes then (- EINVAL, None) else
    if negb (code =? imx258_get_format_code hflip vflip code)
    then (- EINVAL, None) else
    match mode_list with
    | Some l =>
        match nth_error l (Z.to_nat index) with
        | Some m =>
            (0, Some {| fse_min_width := width m; fse_max_width := width m;
                        fse_min_height := height m;
                        fse_max_height := height m |})
        | None => (- EINVAL, None)
        end
    | None => (- EINVAL, None)
    end
  else
    if negb (code =? MEDIA_BUS_FMT_SENSOR_DATA) || (index >? 0)
    then (- EINVAL, None) else
    (0, Some {| fse_min_width := IMX258_EMBEDDED_LINE_WIDTH;
                fse_max_width := IMX258_EMBEDDED_LINE_WIDTH;
                fse_min_height := IMX258_NUM_EMBEDDED_LINES;
                fse_max_height := IMX258_NUM_EMBEDDED_LINES |}).

(** A media bus frame format; the colorspace fields that
    [imx258_reset_colorspace] fills from the V4L2 default macros are left
    out. *)
Record v4l2_mbus_framefmt := {
  mf_width : Z; mf_height : Z; mf_code : Z; mf_field : Z
}.

Record v4l2_rect := { r_left : Z; r_top : Z; r_width : Z; r_height : Z }.

(** The TRY state a file handle keeps per pad. *)
Record try_state := {
  try_fmt_img : v4l2_mbus_framefmt;
  try_fmt_meta : v4l2_mbus_framefmt;
  try_crop : v4l2_rect
}.

(** [imx258_open]: the image and metadata TRY formats and the TRY crop
    are initialised; the image format's other fields are kept. *)
Definition imx258_open (hflip vflip : Z) (t : try_state) : Z * try_state :=
  let img := try_fmt_img t in
  (0, {| try_fmt_img :=
           {| mf_width := width mode_4208x3120;
              mf_height := height mode_4208x3120;
              mf_code := imx258_get_format_code hflip vflip
                           MEDIA_BUS_FMT_SRGGB10_1X10;
              mf_field := V4L2_FIELD_NONE |};
         try_fmt_meta :=
           {| mf_width := IMX258_EMBEDDED_LINE_WIDTH;
              mf_height := IMX258_NUM_EMBEDDED_LINES;
              mf_code := MEDIA_BUS_FMT_SENSOR_DATA;
              mf_field := V4L2_FIELD_NONE |};
         try_crop :=
           {| r_left := IMX258_PIXEL_ARRAY_LEFT; r_top := IMX258_PIXEL_ARRAY_TOP;
              r_width := IMX258_PIXEL_ARRAY_WIDTH;
              r_height := IMX258_PIXEL_ARRAY_HEIGHT |} |}).

Definition set_mf_code (c : Z) (f : v4l2_mbus_framefmt) : v4l2_mbus_framefmt :=
  {| mf_width := mf_width f; mf_height := mf_height f; mf_code := c;
     mf_field := mf_field f |}.

(** [imx258_update_image_pad_format] (colorspace left out) and
    [imx258_update_metadata_pad_format]. *)
Definition imx258_update_image_pad_format (m : imx258_mode)
    (f : v4l2_mbus_framefmt) : v4l2_mbus_framefmt :=
  {| mf_width := width m; mf_height := height m; mf_code := mf_code f;
     mf_field := V4L2_FIELD_NONE |}.

Definition imx258_update_metadata_pad_format (f : v4l2_mbus_framefmt)
    : v4l2_mbus_framefmt :=
  {| mf_width := IMX258_EMBEDDED_LINE_WIDTH;
     mf_height := IMX258_NUM_EMBEDDED_LINES;
     mf_code := MEDIA_BUS_FMT_SENSOR_DATA; mf_field := V4L2_FIELD_NONE |}.

(** [imx258_get_pad_format] on a device whose flips are [hflip], [vflip],
    with active [mode] and [fmt_code]: the return value, the format
    reported and the TRY state afterwards. *)
Definition imx258_get_pad_format (hflip vflip : Z) (mode : imx258_mode)
    (fmt_code : Z) (t : try_state) (pad which : Z) (f : v4l2_mbus_framefmt)
    : Z * v4l2_mbus_framefmt * try_state :=
  if pad >=? NUM_PADS then (- EINVAL, f, t) else
  if which =? V4L2_SUBDEV_FORMAT_TRY then
    if pad =? IMAGE_PAD then
      let tf := set_mf_code
                  (imx258_get_format_code hflip vflip (mf_code (try_fmt_img t)))
                  (try_fmt_img t) in
      (0, tf, {| try_fmt_img := tf; try_fmt_meta := try_fmt_meta t;
                 try_crop := try_crop t |})
    else
      let tf := set_mf_code MEDIA_BUS_FMT_SENSOR_DATA (try_fmt_meta t) in
      (0, tf, {| try_fmt_img := try_fmt_img t; try_fmt_meta := tf;
                 try_crop := try_crop t |})
  else
    if pad =? IMAGE_PAD then
      (0, set_mf_code (imx258_get_format_code hflip vflip fmt_code)
            (imx258_update_image_pad_format mode f), t)
    else (0, imx258_update_metadata_pad_format f, t).

(** *** Hardware configuration, power *)

(** The collaborator calls of [imx258_check_hwcfg]. *)
Inductive hwcfg_op :=
  | FwnodeGraphGetNextEndpoint
  | V4l2FwnodeEndpointAllocParse
  | V4l2FwnodeEndpointFree
  | FwnodeHandlePut.

(** The fields of [struct v4l2_fwnode_endpoint] the check reads;
    [nr_of_link_frequencies] is the length of [link_frequencies]. *)
Record v4l2_fwnode_endpoint := {
  num_data_lanes : Z;
  link_frequencies : list Z
}.

(** [imx258_check_hwcfg]: [endpoint] tells whether an endpoint node was
    found, [parse] is what [v4l2_fwnode_endpoint_alloc_parse] returns and
    [ep] what it parsed. *)
Definition imx258_check_hwcfg (endpoint : bool) (parse : Z)
    (ep : v4l2_fwnode_endpoint) : Z * list hwcfg_op :=
  if negb endpoint then (- EINVAL, [FwnodeGraphGetNextEndpoint]) else
  let ret0 :=
    if negb (parse =? 0) then - EINVAL
    else if negb (num_data_lanes ep =? 2) then - EINVAL
    else if (length (link_frequencies ep) =? 0)%nat then - EINVAL
    else if negb (length (link_frequencies ep) =? 1)%nat
            || negb (nth 0 (link_frequencies ep) 0 =? IMX258_DEFAULT_LINK_FREQ)
    then - EINVAL
    else 0 in
  (ret0, [FwnodeGraphGetNextEndpoint; V4l2FwnodeEndpointAllocParse;
          V4l2FwnodeEndpointFree; FwnodeHandlePut]).

(** The collaborator calls of the power functions. *)
Inductive pwr_op :=
  | RegulatorBulkEnable
  | ClkPrepareEnable
  | GpiodSetValueCansleep (v : Z)
  | UsleepRange (lo hi : Z)
  | RegulatorBulkDisable
  | ClkDisableUnprepare.

(** [imx258_power_on]; [penv] answers the two enabling calls. *)
Definition imx258_power_on (penv : pwr_op -> Z) : Z * list pwr_op :=
  let r := penv RegulatorBulkEnable in
  if negb (r =? 0) then (r, [RegulatorBulkEnable]) else
  let r := penv ClkPrepareEnable in
  if negb (r =? 0)
  then (r, [RegulatorBulkEnable; ClkPrepareEnable; RegulatorBulkDisable])
  else (0, [RegulatorBulkEnable; ClkPrepareEnable; GpiodSetValueCansleep 1;
            UsleepRange IMX258_XCLR_MIN_DELAY_US
              (IMX258_XCLR_MIN_DELAY_US + IMX258_XCLR_DELAY_RANGE_US)]).

(** [imx258_power_off]: it also forces the common registers to be
    rewritten at the next stream start. *)
Definition imx258_power_off (s : imx258) : Z * list pwr_op * imx258 :=
  (0, [GpiodSetValueCansleep 0; RegulatorBulkDisable; ClkDisableUnprepare],
   set_common_regs_written false s).

Section SystemSleep.

Variable env : nat -> bus_op -> Z.

(** [imx258_suspend]. *)
Definition imx258_suspend : M Z :=
  st <- gets streaming ;;
  (if st then imx258_stop_streaming env else ret tt) ;;;
  ret 0.

(** [imx258_resume]: on a failed restart the sensor is stopped and
    marked not streaming. *)
Definition imx258_resume : M Z :=
  st <- gets streaming ;;
  if st then
    r <- imx258_start_streaming env ;;
    if negb (r =? 0) then
      imx258_stop_streaming env ;;;
      modify (set_streaming false) ;;;
      ret r
    else ret 0
  else ret 0.

End SystemSleep.

(** The mainline driver's [imx258_get_format_code]: the code depends on
    the flips only. *)
Definition mainline_imx258_get_format_code (hflip vflip : Z) : Z :=
  nth (Z.to_nat (Z.lor (if vflip =? 0 then 0 else 2)
                       (if hflip =? 0 then 0 else 1))) codes 0.

(** The bus operation of one entry of a register table, as
    [imx258_write_regs] sends it. *)
Definition reg_write_op (r : imx258_reg) : bus_op :=
  I2cSend (address r) IMX258_REG_VALUE_08BIT (val r).

(** An I2C transfer (as opposed to a runtime PM call). *)
Definition is_i2c (op : bus_op) : Prop :=
  match op with I2cSend _ _ _ => True | _ => False end.

(** Net number of [regulator_bulk_enable] calls not matched by a disable. *)
Fixpoint regulator_balance (ops : list pwr_op) : Z :=
  match ops with
  | [] => 0
  | RegulatorBulkEnable :: ops' => 1 + regulator_balance ops'
  | RegulatorBulkDisable :: ops' => regulator_balance ops' - 1
  | _ :: ops' => regulator_balance ops'
  end.

(** A zeroed format and TRY state, as a freshly allocated file handle
    holds them. *)
Definition fmt_zero : v4l2_mbus_framefmt :=
  {| mf_width := 0; mf_height := 0; mf_code := 0; mf_field := 0 |}.

Definition try_zero : try_state :=
  {| try_fmt_img := fmt_zero; try_fmt_meta := fmt_zero;
     try_crop := {| r_left := 0; r_top := 0; r_width := 0; r_height := 0 |} |}.

(** * Proofs *)

(** Case on the first [if] of the goal. *)
Ltac case_if :=
  match goal with |- context [if ?c then _ else _] => destruct c end.

(** ** The long exposure shift loop *)

Lemma shiftr_antitone (v a b : Z) :
  0 <= v -> 0 <= a <= b -> Z.shiftr v b <= Z.shiftr v a.
Proof.
  intros Hv Hab.
  rewrite !Z.shiftr_div_pow2 by lia.
  apply Z.div_le_compat_l; [lia|].
  split; [apply Z.pow_pos_nonneg; lia|].
  apply Z.pow_le_mono_r; lia.
Qed.

(** The loop stops at the least [k] with [v >> k <= IMX258_FRAME_LENGTH_MAX],
    provided the fuel reaches it. *)
Lemma long_exp_loop_spec (fuel : nat) : forall shift v,
  0 <= v -> Z.shiftr v (Z.of_nat fuel) <= IMX258_FRAME_LENGTH_MAX ->
  exists k, 0 <= k <= Z.of_nat fuel /\
    long_exp_loop fuel shift v = (shift + k, Z.shiftr v k) /\
    Z.shiftr v k <= IMX258_FRAME_LENGTH_MAX /\
    (forall j, 0 <= j < k -> Z.shiftr v j > IMX258_FRAME_LENGTH_MAX).
Proof.
  induction fuel as [|fuel IH]; intros shift v Hv Hfuel; simpl.
  - exists 0. rewrite Z.shiftr_0_r, Z.add_0_r in *.
    repeat split; auto; lia.
  - destruct (Z.gtb_spec v IMX258_FRAME_LENGTH_MAX) as [Hgt|Hle].
    + destruct (IH (shift + 1) (Z.shiftr v 1)) as (k & Hk & Heq & Hmax & Hmin).
      * apply Z.shiftr_nonneg; lia.
      * rewrite Z.shiftr_shiftr by lia.
        replace (1 + Z.of_nat fuel) with (Z.of_nat (S fuel)) by lia. exact Hfuel.
      * exists (k + 1).
        rewrite Z.shiftr_shiftr in Heq, Hmax by lia.
        rewrite Heq, <- Z.add_assoc, (Z.add_comm k 1).
        repeat split; try lia; auto.
        intros j Hj.
        destruct (Z.eq_dec j 0) as [->|Hj0].
        -- rewrite Z.shiftr_0_r. lia.
        -- specialize (Hmin (j - 1) ltac:(lia)).
           rewrite Z.shiftr_shiftr in Hmin by lia.
           replace (1 + (j - 1)) with j in Hmin by lia. exact Hmin.
    + exists 0. rewrite Z.shiftr_0_r, Z.add_0_r.
      repeat split; auto; lia.
Qed.

Lemma frame_length_shift_spec (L : Z) :
  0 <= L < 2 ^ 32 ->
  exists k, 0 <= k <= 32 /\ frame_length_shift L = (k, Z.shiftr L k) /\
    Z.shiftr L k <= IMX258_FRAME_LENGTH_MAX /\
    (forall j, 0 <= j < k -> Z.shiftr L j > IMX258_FRAME_LENGTH_MAX).
Proof.
  intros HL. unfold frame_length_shift.
  destruct (long_exp_loop_spec 32 0 L) as (k & Hk & Heq & Hmax & Hmin).
  - lia.
  - rewrite Z.shiftr_div_pow2 by lia.
    rewrite Z.div_small by lia. unfold IMX258_FRAME_LENGTH_MAX; lia.
  - exists k. rewrite Heq. simpl in Hk. repeat split; auto; lia.
Qed.

(** ** Register writes only extend the trace *)

Lemma write_reg_frame (env : nat -> bus_op -> Z) (reg len v : Z) (s : imx258) :
  exists r t, imx258_write_reg env reg len v s = (r, set_trace t s).
Proof.
  unfold imx258_write_reg, bind, call, ret.
  destruct (len >? 4).
  - exists (- EINVAL), (trace s). destruct s; reflexivity.
  - destruct (env (length (trace s)) (I2cSend reg len v) =? len + 2);
      eexists; eexists; reflexivity.
Qed.

Lemma set_frame_length_shift (env : nat -> bus_op -> Z) (L : Z) (s : imx258) :
  long_exp_shift (snd (imx258_set_frame_length env L s))
  = fst (frame_length_shift L).
Proof.
  unfold imx258_set_frame_length.
  destruct (frame_length_shift L) as [sh v']. unfold bind, modify. simpl.
  destruct (write_reg_frame env IMX258_REG_FRAME_LENGTH IMX258_REG_VALUE_16BIT v'
              (set_long_exp_shift sh s)) as (r & t & ->).
  destruct (negb (r =? 0)); simpl; [reflexivity|].
  destruct (write_reg_frame env IMX258_LONG_EXP_SHIFT_REG IMX258_REG_VALUE_08BIT sh
              (set_trace t (set_long_exp_shift sh s))) as (r' & t' & ->).
  reflexivity.
Qed.

(** The frame lengths [imx258_set_frame_length] receives: its only caller,
    the VBLANK case of [imx258_set_ctrl], passes [mode->height + VBLANK],
    where the mode is one of the table modes and VBLANK keeps the range
    [[0, 0xffff]] it is created with in [imx258_init_controls] (the range
    update in [imx258_set_framing_limits] is commented out). *)
Lemma caller_frame_length_range (m : imx258_mode) (vb : Z) :
  In m supported_modes_10bit -> 0 <= vb <= 0xffff ->
  u32 (height m + vb) = height m + vb /\ 0 <= height m + vb <= 3120 + 0xffff.
Proof.
  intros Hm Hvb.
  assert (Hh : 0 <= height m <= 3120).
  { simpl in Hm. destruct Hm as [<-|[<-|[<-|[]]]]; simpl; lia. }
  unfold u32. rewrite Z.mod_small by lia. lia.
Qed.

(** (C2) For every frame length the driver passes, [mode->height + VBLANK]
    with a table mode and [0 <= VBLANK <= 0xffff], [imx258_set_frame_length]
    halves it while it exceeds [IMX258_FRAME_LENGTH_MAX], and the stored
    shift satisfies [L >> shift <= FRAME_LENGTH_MAX] and
    [shift <= IMX258_LONG_EXP_SHIFT_MAX]. *)
Theorem set_frame_length_shift_bounds (env : nat -> bus_op -> Z) (s : imx258)
    (m : imx258_mode) (vb : Z) :
  In m supported_modes_10bit -> 0 <= vb <= 0xffff ->
  let L := u32 (height m + vb) in
  let sh := long_exp_shift (snd (imx258_set_frame_length env L s)) in
  Z.shiftr L sh <= IMX258_FRAME_LENGTH_MAX /\
  0 <= sh <= IMX258_LONG_EXP_SHIFT_MAX.
Proof.
  intros Hm Hvb L sh. subst sh.
  destruct (caller_frame_length_range m vb Hm Hvb) as [HL HLr].
  fold L in HL. rewrite HL in *. rewrite set_frame_length_shift.
  destruct (frame_length_shift_spec (height m + vb)) as (k & Hk & -> & Hmax & Hmin).
  { lia. }
  simpl. split; [exact Hmax|]. unfold IMX258_LONG_EXP_SHIFT_MAX.
  split; [lia|].
  destruct (Z.le_gt_cases k 7) as [|Hgt]; [lia|].
  specialize (Hmin 7 ltac:(lia)).
  rewrite Z.shiftr_div_pow2 in Hmin by lia.
  assert ((height m + vb) / 2 ^ 7 <= (3120 + 0xffff) / 2 ^ 7)
    by (apply Z.div_le_mono; lia).
  unfold IMX258_FRAME_LENGTH_MAX in Hmin. change (2 ^ 7) with 128 in *.
  change ((3120 + 0xffff) / 128) with 536 in *. lia.
Qed.

Lemma set_frame_length_shift_bounds_witness :
  In mode_4208x3120 supported_modes_10bit /\ 0 <= 0xffff <= 0xffff /\
  (let L := u32 (height mode_4208x3120 + 0xffff) in
   let sh := long_exp_shift (snd (imx258_set_frame_length env_ok L dev_standby)) in
   Z.shiftr L sh <= IMX258_FRAME_LENGTH_MAX /\
   0 <= sh <= IMX258_LONG_EXP_SHIFT_MAX).
Proof.
  assert (H1 : In mode_4208x3120 supported_modes_10bit) by (left; reflexivity).
  assert (H2 : 0 <= 0xffff <= 0xffff) by lia.
  split; [exact H1|]. split; [exact H2|].
  exact (set_frame_length_shift_bounds env_ok dev_standby mode_4208x3120 0xffff
           H1 H2).
Defined.

(** (C10) For every frame length the driver passes ([mode->height +
    VBLANK], a table mode, [0 <= VBLANK <= 0xffff]), the round trip
    [(L >> shift) << shift] with the shift [imx258_set_frame_length] stores
    is at most one unit below [L]. *)
Theorem set_frame_length_roundtrip (env : nat -> bus_op -> Z) (s : imx258)
    (m : imx258_mode) (vb : Z) :
  In m supported_modes_10bit -> 0 <= vb <= 0xffff ->
  let L := u32 (height m + vb) in
  let sh := long_exp_shift (snd (imx258_set_frame_length env L s)) in
  0 <= L - Z.shiftl (Z.shiftr L sh) sh <= 1.
Proof.
  intros Hm Hvb L sh. subst sh.
  destruct (caller_frame_length_range m vb Hm Hvb) as [HL HLr].
  fold L in HL. rewrite HL in *. rewrite set_frame_length_shift.
  set (x := height m + vb) in *.
  destruct (frame_length_shift_spec x) as (k & Hk & -> & Hmax & Hmin).
  { lia. }
  simpl.
  assert (Hrt : x - Z.shiftl (Z.shiftr x k) k = x mod 2 ^ k).
  { rewrite Z.shiftl_mul_pow2, Z.shiftr_div_pow2 by lia.
    rewrite (Z.div_mod x (2 ^ k)) at 1 by (apply Z.pow_nonzero; lia). lia. }
  rewrite Hrt.
  assert (Hk1 : k <= 1).
  { destruct (Z.le_gt_cases k 1) as [|Hgt]; [assumption|].
    specialize (Hmin 1 ltac:(lia)).
    rewrite Z.shiftr_div_pow2 in Hmin by lia.
    change (2 ^ 1) with 2 in Hmin.
    unfold IMX258_FRAME_LENGTH_MAX in *.
    assert (x / 2 <= (3120 + 0xffff) / 2) by (apply Z.div_le_mono; lia).
    change ((3120 + 0xffff) / 2) with 34327 in *. lia. }
  assert (Hpos : 0 < 2 ^ k) by (apply Z.pow_pos_nonneg; lia).
  assert (Hm' := Z.mod_pos_bound x (2 ^ k) Hpos).
  assert (2 ^ k <= 2 ^ 1) by (apply Z.pow_le_mono_r; lia).
  change (2 ^ 1) with 2 in *. lia.
Qed.

Lemma set_frame_length_roundtrip_witness :
  In mode_4208x3120 supported_modes_10bit /\ 0 <= 0xffff <= 0xffff /\
  (let L := u32 (height mode_4208x3120 + 0xffff) in
   let sh := long_exp_shift (snd (imx258_set_frame_length env_ok L dev_standby)) in
   0 <= L - Z.shiftl (Z.shiftr L sh) sh <= 1).
Proof.
  assert (H1 : In mode_4208x3120 supported_modes_10bit) by (left; reflexivity).
  assert (H2 : 0 <= 0xffff <= 0xffff) by lia.
  split; [exact H1|]. split; [exact H2|].
  exact (set_frame_length_roundtrip env_ok dev_standby mode_4208x3120 0xffff
           H1 H2).
Defined.

(** ** Frame length from a frame interval *)

(** The u64 dividend never wraps for a 32-bit numerator; when the divisor
    product fits in 32 bits, [do_div] divides by it exactly, so the frame
    length is the exact quotient, saturated, then raised to the mode
    height. *)
Lemma get_frame_length_eq (mode : imx258_mode) (tpf : v4l2_fract) :
  0 <= numerator tpf < 2 ^ 32 -> 0 < denominator tpf ->
  0 < line_length_pix mode ->
  denominator tpf * line_length_pix mode < 2 ^ 32 ->
  imx258_get_frame_length mode tpf =
  Z.max (Z.min (numerator tpf * IMX258_PIXEL_RATE /
                (denominator tpf * line_length_pix mode))
               IMX258_FRAME_LENGTH_MAX)
        (u32 (height mode)).
Proof.
  intros Hn Hd Hl Hdl.
  assert (Hbase : u32 (u64 (denominator tpf * line_length_pix mode))
                  = denominator tpf * line_length_pix mode).
  { unfold u32, u64. change (2 ^ 32) with 4294967296 in *.
    change (2 ^ 64) with 18446744073709551616.
    rewrite (Z.mod_small _ 18446744073709551616) by nia.
    apply Z.mod_small. nia. }
  unfold imx258_get_frame_length. rewrite Hbase. unfold u64.
  unfold IMX258_PIXEL_RATE in *. change (518400000 / 2) with 259200000.
  change (2 ^ 32) with 4294967296 in *.
  change (2 ^ 64) with 18446744073709551616.
  rewrite (Z.mod_small (numerator tpf * _)) by nia.
  set (q := numerator tpf * _ / _).
  assert (Hq : 0 <= q) by (apply Z.div_pos; nia).
  unfold u32 at 1. unfold IMX258_FRAME_LENGTH_MAX.
  change (2 ^ 32) with 4294967296.
  destruct (Z.gtb_spec q 0xffdc).
  - rewrite Z.mod_small by lia. f_equal. lia.
  - rewrite Z.mod_small by lia. f_equal. lia.
Qed.

(** Every call the driver makes, [imx258_set_framing_limits] on a table
    mode with its minimum or default frame interval, has a 32-bit numerator
    and a non-zero divisor product below [2^32]. *)
Lemma framing_limits_inputs_fit :
  Forall (fun m => forall tpf,
            tpf = timeperframe_min m \/ tpf = timeperframe_default m ->
            0 <= height m <= IMX258_FRAME_LENGTH_MAX /\
            0 < line_length_pix m /\
            0 <= numerator tpf < 2 ^ 32 /\ 0 < denominator tpf /\
            denominator tpf * line_length_pix m < 2 ^ 32)
    supported_modes_10bit.
Proof.
  unfold supported_modes_10bit.
  repeat apply Forall_cons; try apply Forall_nil;
    intros tpf [-> | ->]; vm_compute; repeat split; discriminate.
Qed.

(** (C5) For every mode of sane dimensions and every frame interval with a
    32-bit numerator and a non-zero divisor product
    [denominator * lineLengthPixels] below [2^32] (every call of the
    driver, [framing_limits_inputs_fit]), the frame length is
    [numerator * pixelRate / (denominator * lineLengthPixels)] clamped to
    [[mode.height, FRAME_LENGTH_MAX]]: saturated above, raised below. *)
Theorem get_frame_length_clamped (mode : imx258_mode) (tpf : v4l2_fract) :
  0 <= height mode <= IMX258_FRAME_LENGTH_MAX ->
  0 < line_length_pix mode ->
  0 <= numerator tpf < 2 ^ 32 -> 0 < denominator tpf ->
  denominator tpf * line_length_pix mode < 2 ^ 32 ->
  let q := numerator tpf * IMX258_PIXEL_RATE /
           (denominator tpf * line_length_pix mode) in
  imx258_get_frame_length mode tpf =
    Z.max (Z.min q IMX258_FRAME_LENGTH_MAX) (height mode) /\
  height mode <= imx258_get_frame_length mode tpf <= IMX258_FRAME_LENGTH_MAX /\
  (q > IMX258_FRAME_LENGTH_MAX ->
   imx258_get_frame_length mode tpf = IMX258_FRAME_LENGTH_MAX) /\
  (q < height mode -> imx258_get_frame_length mode tpf = height mode).
Proof.
  intros Hh Hl Hn Hd Hdl q.
  rewrite get_frame_length_eq by assumption.
  unfold u32. rewrite (Z.mod_small (height mode))
    by (unfold IMX258_FRAME_LENGTH_MAX in *; lia).
  fold q.
  assert (Hq : 0 <= q)
    by (apply Z.div_pos; unfold IMX258_PIXEL_RATE; change (518400000 / 2) with 259200000; nia).
  repeat split; lia.
Qed.

Lemma get_frame_length_clamped_witness :
  let tpf := timeperframe_default mode_4208x3120 in
  (0 <= height mode_4208x3120 <= IMX258_FRAME_LENGTH_MAX) /\
  (0 < line_length_pix mode_4208x3120) /\
  (0 <= numerator tpf < 2 ^ 32) /\ (0 < denominator tpf) /\
  (denominator tpf * line_length_pix mode_4208x3120 < 2 ^ 32) /\
  (let q := numerator tpf * IMX258_PIXEL_RATE /
            (denominator tpf * line_length_pix mode_4208x3120) in
   imx258_get_frame_length mode_4208x3120 tpf =
     Z.max (Z.min q IMX258_FRAME_LENGTH_MAX) (height mode_4208x3120) /\
   height mode_4208x3120 <= imx258_get_frame_length mode_4208x3120 tpf
     <= IMX258_FRAME_LENGTH_MAX /\
   (q > IMX258_FRAME_LENGTH_MAX ->
    imx258_get_frame_length mode_4208x3120 tpf = IMX258_FRAME_LENGTH_MAX) /\
   (q < height mode_4208x3120 ->
    imx258_get_frame_length mode_4208x3120 tpf = height mode_4208x3120)).
Proof.
  intros tpf.
  assert (H1 : 0 <= height mode_4208x3120 <= IMX258_FRAME_LENGTH_MAX)
    by (vm_compute; split; discriminate).
  assert (H2 : 0 < line_length_pix mode_4208x3120) by reflexivity.
  assert (H3 : 0 <= numerator tpf < 2 ^ 32)
    by (vm_compute; split; [discriminate | reflexivity]).
  assert (H4 : 0 < denominator tpf) by reflexivity.
  assert (H5 : denominator tpf * line_length_pix mode_4208x3120 < 2 ^ 32)
    by reflexivity.
  refine (conj H1 (conj H2 (conj H3 (conj H4 (conj H5 _))))).
  exact (get_frame_length_clamped mode_4208x3120 tpf H1 H2 H3 H4 H5).
Defined.

(** (C9) With the same denominator, a larger numerator (a slower requested
    rate) never gives a shorter frame length.  This holds for every 32-bit
    numerator and denominator, also when the divisor product wraps in
    [do_div]'s 32-bit divisor, as long as that divisor is not 0 (a division
    by zero, undefined in C). *)
Theorem get_frame_length_mono_numerator (mode : imx258_mode) (n1 n2 d : Z) :
  0 <= line_length_pix mode < 2 ^ 32 ->
  0 <= n1 <= n2 -> n2 < 2 ^ 32 -> 0 <= d < 2 ^ 32 ->
  u32 (u64 (d * line_length_pix mode)) <> 0 ->
  imx258_get_frame_length mode {| numerator := n1; denominator := d |}
  <= imx258_get_frame_length mode {| numerator := n2; denominator := d |}.
Proof.
  intros Hl Hn Hn2 Hd Hb. unfold imx258_get_frame_length. cbn [numerator denominator].
  set (b := u32 (u64 (d * line_length_pix mode))) in *.
  assert (Hb0 : 0 < b).
  { assert (0 <= b) by (subst b; unfold u32; apply Z.mod_pos_bound; lia). lia. }
  unfold u64, IMX258_PIXEL_RATE. change (518400000 / 2) with 259200000.
  change (2 ^ 32) with 4294967296 in *.
  change (2 ^ 64) with 18446744073709551616.
  rewrite (Z.mod_small (n1 * 259200000)), (Z.mod_small (n2 * 259200000)) by nia.
  assert (Hq : n1 * 259200000 / b <= n2 * 259200000 / b)
    by (apply Z.div_le_mono; nia).
  assert (0 <= n1 * 259200000 / b) by (apply Z.div_pos; nia).
  set (q1 := n1 * 259200000 / b) in *. set (q2 := n2 * 259200000 / b) in *.
  assert (Hmono : forall x y, 0 <= x <= y -> y <= 0xffdc ->
            Z.max (u32 x) (u32 (height mode)) <= Z.max (u32 y) (u32 (height mode))).
  { intros x y Hxy Hy. unfold u32.
    rewrite (Z.mod_small x), (Z.mod_small y) by lia. lia. }
  unfold IMX258_FRAME_LENGTH_MAX.
  destruct (Z.gtb_spec q1 0xffdc), (Z.gtb_spec q2 0xffdc); apply Hmono; lia.
Qed.

Lemma get_frame_length_mono_numerator_witness :
  (0 <= line_length_pix mode_4208x3120 < 2 ^ 32) /\
  0 <= 100 <= 300 /\ 300 < 2 ^ 32 /\ 0 <= 802499 < 2 ^ 32 /\
  u32 (u64 (802499 * line_length_pix mode_4208x3120)) <> 0 /\
  imx258_get_frame_length mode_4208x3120 {| numerator := 100; denominator := 802499 |}
  <= imx258_get_frame_length mode_4208x3120 {| numerator := 300; denominator := 802499 |}.
Proof.
  assert (H : 0 <= line_length_pix mode_4208x3120 < 2 ^ 32)
    by (vm_compute; split; [discriminate | reflexivity]).
  assert (Hb : u32 (u64 (802499 * line_length_pix mode_4208x3120)) <> 0)
    by (vm_compute; discriminate).
  refine (conj H (conj _ (conj _ (conj _ (conj Hb _))))); try lia.
  apply get_frame_length_mono_numerator; [exact H | lia | lia | lia | exact Hb].
Defined.

(** ** Flip-dependent format code *)

Lemma code_index_le (l : list Z) (code : Z) : (code_index l code <= length l)%nat.
Proof.
  induction l as [|c l IH]; simpl; [lia|].
  destruct (c =? code); lia.
Qed.

Lemma code_index_absent (l : list Z) (code : Z) :
  ~ In code l -> code_index l code = length l.
Proof.
  induction l as [|c l IH]; simpl; intros Hin; [reflexivity|].
  destruct (Z.eqb_spec c code) as [->|]; [tauto|].
  rewrite IH by tauto. reflexivity.
Qed.

(** (C6) The flip remap returns the code at index
    [(baseIndex & ~3) | (vflip ? 2 : 0) | (hflip ? 1 : 0)] of [codes]; an
    unknown code uses block 0; the result is always in [codes]. *)
Theorem get_format_code_remap (hflip vflip code : Z) :
  let vb := if vflip =? 0 then 0 else 2 in
  let hb := if hflip =? 0 then 0 else 1 in
  (forall i, (i < length codes)%nat -> nth i codes 0 = code ->
     imx258_get_format_code hflip vflip code =
     nth (Z.to_nat (Z.lor (Z.lor (Z.land (Z.of_nat i) (Z.lnot 3)) vb) hb))
         codes 0) /\
  (~ In code codes ->
     imx258_get_format_code hflip vflip code =
     nth (Z.to_nat (Z.lor (Z.lor (Z.land 0 (Z.lnot 3)) vb) hb)) codes 0) /\
  In (imx258_get_format_code hflip vflip code) codes.
Proof.
  intros vb hb. subst vb hb. unfold imx258_get_format_code.
  split; [|split].
  - intros i Hi Hc. subst code. simpl in Hi.
    destruct i as [|[|[|[|i]]]]; try lia;
      destruct (vflip =? 0), (hflip =? 0); reflexivity.
  - intros Hin. rewrite code_index_absent by exact Hin.
    destruct (vflip =? 0), (hflip =? 0); reflexivity.
  - assert (Hle : (code_index codes code <= 4)%nat)
      by apply (code_index_le codes code).
    apply nth_In.
    destruct (code_index codes code) as [|[|[|[|[|n]]]]]; try lia;
      destruct (vflip =? 0), (hflip =? 0); simpl; lia.
Qed.

Lemma get_format_code_remap_witness :
  (2 < length codes)%nat /\ nth 2 codes 0 = MEDIA_BUS_FMT_SGBRG10_1X10 /\
  imx258_get_format_code 1 0 MEDIA_BUS_FMT_SGBRG10_1X10 =
  nth (Z.to_nat (Z.lor (Z.lor (Z.land (Z.of_nat 2) (Z.lnot 3))
                              (if 0 =? 0 then 0 else 2))
                       (if 1 =? 0 then 0 else 1))) codes 0.
Proof.
  assert (H1 : (2 < length codes)%nat) by (simpl; lia).
  assert (H2 : nth 2 codes 0 = MEDIA_BUS_FMT_SGBRG10_1X10) by reflexivity.
  refine (conj H1 (conj H2 _)).
  exact (proj1 (get_format_code_remap 1 0 MEDIA_BUS_FMT_SGBRG10_1X10) 2%nat H1 H2).
Defined.

(** ** Exposure range *)

Lemma s32_u32_small (x : Z) : - 2 ^ 31 <= x < 2 ^ 31 -> s32 (u32 x) = x.
Proof.
  intros Hx. unfold s32, u32.
  rewrite Z.add_mod_idemp_l by (apply Z.pow_nonzero; lia).
  rewrite Z.mod_small by (change (2 ^ 32) with (2 ^ 31 + 2 ^ 31); lia).
  lia.
Qed.

Lemma ctrl_id_beq_eq (a b : ctrl_id) : ctrl_id_beq a b = true <-> a = b.
Proof.
  split; [apply internal_ctrl_id_dec_bl | apply internal_ctrl_id_dec_lb].
Qed.

(** (C4) After [imx258_adjust_exposure_range], the exposure maximum is
    [mode.height + V - (EXPOSURE_OFFSET << shift)] for the VBLANK value [V]
    and the stored shift; the current value is clamped down to it (so
    it never stays above it) and the default is the clamped value. *)
Theorem adjust_exposure_range_max (s : imx258) :
  0 <= height (mode s) <= 0xffff ->
  0 <= cur (ctrls s CID_VBLANK) <= 0xffff ->
  0 <= long_exp_shift s <= 16 ->
  let s' := snd (imx258_adjust_exposure_range s) in
  let e := ctrls s' CID_EXPOSURE in
  let mx := height (mode s) + cur (ctrls s CID_VBLANK)
            - Z.shiftl IMX258_EXPOSURE_OFFSET (long_exp_shift s) in
  maximum e = mx /\
  cur e = Z.min (cur (ctrls s CID_EXPOSURE)) mx /\
  cur e <= maximum e /\
  default_value e = Z.min mx (cur (ctrls s CID_EXPOSURE)) /\
  minimum e = minimum (ctrls s CID_EXPOSURE) /\
  step e = step (ctrls s CID_EXPOSURE) /\
  (forall id, id <> CID_EXPOSURE -> ctrls s' id = ctrls s id).
Proof.
  intros Hh Hv Hsh s' e mx.
  assert (Hshl : 0 <= Z.shiftl IMX258_EXPOSURE_OFFSET (long_exp_shift s)
                 <= 22 * 2 ^ 16).
  { rewrite Z.shiftl_mul_pow2 by lia. unfold IMX258_EXPOSURE_OFFSET.
    assert (0 < 2 ^ long_exp_shift s <= 2 ^ 16).
    { split; [apply Z.pow_pos_nonneg; lia | apply Z.pow_le_mono_r; lia]. }
    lia. }
  assert (Hmx : s32 (u32 mx) = mx).
  { apply s32_u32_small. change (2 ^ 16) with 65536 in Hshl.
    change (2 ^ 31) with 2147483648. unfold mx. lia. }
  subst s' e. unfold imx258_adjust_exposure_range, v4l2_ctrl_modify_range,
    bind, gets, modify. simpl. fold mx. rewrite Hmx.
  unfold update_ctrl. simpl.
  repeat split.
  - destruct (Z.gtb_spec (cur (ctrls s CID_EXPOSURE)) mx); lia.
  - destruct (Z.gtb_spec (cur (ctrls s CID_EXPOSURE)) mx); lia.
  - intros id Hid. destruct id; reflexivity || congruence.
Qed.

Lemma adjust_exposure_range_max_witness :
  let s := set_ctrls (update_ctrl init_ctrls CID_VBLANK (std_ctrl 0 0xffff 1 1723))
             dev_standby in
  (0 <= height (mode s) <= 0xffff) /\
  (0 <= cur (ctrls s CID_VBLANK) <= 0xffff) /\
  (0 <= long_exp_shift s <= 16) /\
  maximum (ctrls (snd (imx258_adjust_exposure_range s)) CID_EXPOSURE)
  = height (mode s) + cur (ctrls s CID_VBLANK)
    - Z.shiftl IMX258_EXPOSURE_OFFSET (long_exp_shift s).
Proof.
  intros s.
  assert (H1 : 0 <= height (mode s) <= 0xffff) by (vm_compute; split; discriminate).
  assert (H2 : 0 <= cur (ctrls s CID_VBLANK) <= 0xffff)
    by (vm_compute; split; discriminate).
  assert (H3 : 0 <= long_exp_shift s <= 16) by (vm_compute; split; discriminate).
  refine (conj H1 (conj H2 (conj H3 _))).
  exact (proj1 (adjust_exposure_range_max s H1 H2 H3)).
Defined.

(** ** Controls while the device is idle *)

(** (C8) When [pm_runtime_get_if_in_use] reports the device idle, setting
    any control records the new value, issues no register write (the only
    collaborator call is the PM query) and returns success; every writable
    control is among those the bulk commit of stream start replays. *)
Theorem s_ctrl_idle_no_write (env : nat -> bus_op -> Z) (s : imx258)
    (id : ctrl_id) (x : Z) :
  env (length (trace s)) PmGetIfInUse = 0 ->
  let (r, s') := v4l2_s_ctrl env id x s in
  r = 0 /\ trace s' = trace s ++ [PmGetIfInUse] /\ cur (ctrls s' id) = x /\
  (id <> CID_PIXEL_RATE -> id <> CID_HBLANK -> In id imx258_handler_ctrls).
Proof.
  intros Hidle.
  destruct id; cbn - [Z.shiftl s32 u32 Z.min In];
    rewrite Hidle; cbn - [In]; repeat split;
    intros; simpl; tauto.
Qed.

Lemma s_ctrl_idle_no_write_witness :
  env_idle (length (trace dev_standby)) PmGetIfInUse = 0 /\
  (let (r, s') := v4l2_s_ctrl env_idle CID_ANALOGUE_GAIN 300 dev_standby in
   r = 0 /\ trace s' = trace dev_standby ++ [PmGetIfInUse] /\
   cur (ctrls s' CID_ANALOGUE_GAIN) = 300 /\
   (CID_ANALOGUE_GAIN <> CID_PIXEL_RATE -> CID_ANALOGUE_GAIN <> CID_HBLANK ->
    In CID_ANALOGUE_GAIN imx258_handler_ctrls)).
Proof.
  assert (H : env_idle (length (trace dev_standby)) PmGetIfInUse = 0)
    by reflexivity.
  exact (conj H (s_ctrl_idle_no_write env_idle dev_standby CID_ANALOGUE_GAIN 300 H)).
Defined.

(** ** Digital gain fan-out *)

(** (C3, failing input) The device is in use and the bus fails only the
    transfer to the B channel register, the third of the four writes.  The
    four writes go out with [1024] verbatim, in the order GR, R, B, GB,
    but [imx258_set_ctrl] returns 0: the B failure is overwritten by the
    GB write's result.  The mainline sibling [imx258_update_digital_gain]
    returns [-EIO] on the same bus. *)
Lemma digital_gain_failure_lost :
  let env := env_fail_reg IMX258_REG_B_DIGITAL_GAIN in
  let (r, s') := v4l2_s_ctrl env CID_DIGITAL_GAIN 1024 dev_standby in
  r = 0 /\
  trace s' =
    [PmGetIfInUse;
     I2cSend IMX258_REG_GR_DIGITAL_GAIN 2 1024;
     I2cSend IMX258_REG_R_DIGITAL_GAIN 2 1024;
     I2cSend IMX258_REG_B_DIGITAL_GAIN 2 1024;
     I2cSend IMX258_REG_GB_DIGITAL_GAIN 2 1024;
     PmPut] /\
  env 3%nat (I2cSend IMX258_REG_B_DIGITAL_GAIN 2 1024) <> 2 + 2 /\
  fst (mainline_imx258_update_digital_gain env 1024 dev_standby) = - EIO.
Proof. vm_compute. repeat split; discriminate. Qed.

(** ** Stream stop *)

(** (C7) Stopping a streaming device always returns 0 and leaves it not
    streaming, whatever the bus answers to the mode-select standby write. *)
Theorem set_stream_stop_succeeds (env : nat -> bus_op -> Z) (s : imx258) :
  streaming s = true ->
  let (r, s') := imx258_set_stream env 0 s in
  r = 0 /\ streaming s' = false /\
  trace s' = trace s ++ [I2cSend IMX258_REG_MODE_SELECT IMX258_REG_VALUE_08BIT
                                 IMX258_MODE_STANDBY; PmPut].
Proof.
  intros Hs.
  unfold imx258_set_stream, imx258_stop_streaming, imx258_write_reg,
    call, bind, gets, modify, ret.
  rewrite Hs. cbn.
  case_if; cbn; rewrite <- app_assoc; repeat split.
Qed.

Lemma set_stream_stop_succeeds_witness :
  streaming dev_streaming = true /\
  (let (r, s') := imx258_set_stream (env_fail_reg IMX258_REG_MODE_SELECT) 0
                    dev_streaming in
   r = 0 /\ streaming s' = false /\
   trace s' = trace dev_streaming ++
     [I2cSend IMX258_REG_MODE_SELECT IMX258_REG_VALUE_08BIT IMX258_MODE_STANDBY;
      PmPut]).
Proof.
  assert (H : streaming dev_streaming = true) by reflexivity.
  exact (conj H (set_stream_stop_succeeds
                   (env_fail_reg IMX258_REG_MODE_SELECT) dev_streaming H)).
Defined.

(** ** Stream start *)

Lemma start_streaming_steps (env : nat -> bus_op -> Z) (s : imx258) :
  imx258_start_streaming env s =
  run_steps [step_common_regs env; step_mode_regs env;
                 step_ctrl_commit env; step_stream_on env] s.
Proof.
  unfold imx258_start_streaming, run_steps, step_common_regs, step_mode_regs,
    step_ctrl_commit, step_stream_on.
  cbv beta iota zeta delta [bind gets ret modify].
  repeat (cbv beta iota delta [negb]; rewrite ?Z.eqb_refl;
    lazymatch goal with
    | |- ?L = _ =>
      match L with
      | context [imx258_write_regs env ?l ?x] =>
          destruct (imx258_write_regs env l x)
      | context [v4l2_ctrl_handler_setup env ?l ?x] =>
          destruct (v4l2_ctrl_handler_setup env l x)
      | context [imx258_write_reg env ?a ?b ?c ?x] =>
          destruct (imx258_write_reg env a b c x)
      | context [?a =? 0] => destruct (a =? 0) eqn:?
      | context [if ?c then _ else _] =>
          lazymatch c with
          | true => fail
          | false => fail
          | _ => destruct c eqn:?
          end
      end
    end); try reflexivity.
  all: match goal with
       | |- _ = (if ?c =? 0 then _ else _) _ =>
           destruct (c =? 0) eqn:E; [apply Z.eqb_eq in E; subst|]; reflexivity
       end.
Qed.

(** *** Which collaborator calls a computation issues *)

Section OnlyOps.

Variable P : bus_op -> Prop.

Lemma only_ret {A} (a : A) : only_ops P (ret a).
Proof. intros s. exists []. rewrite app_nil_r. auto. Qed.

Lemma only_gets {A} (f : imx258 -> A) : only_ops P (gets f).
Proof. intros s. exists []. rewrite app_nil_r. auto. Qed.

Lemma only_modify (f : imx258 -> imx258) :
  (forall s, trace (f s) = trace s) -> only_ops P (modify f).
Proof. intros Hf s. exists []. rewrite app_nil_r. simpl. auto. Qed.

Lemma only_call (env : nat -> bus_op -> Z) (op : bus_op) :
  P op -> only_ops P (call env op).
Proof. intros Hop s. exists [op]. simpl. auto. Qed.

Lemma only_bind {A B} (m : M A) (k : A -> M B) :
  only_ops P m -> (forall a, only_ops P (k a)) -> only_ops P (bind m k).
Proof.
  intros Hm Hk s. unfold bind.
  destruct (Hm s) as (ops1 & E1 & F1).
  destruct (m s) as [a s1]. simpl in E1.
  destruct (Hk a s1) as (ops2 & E2 & F2).
  exists (ops1 ++ ops2). rewrite E2, E1, app_assoc.
  split; [reflexivity | apply Forall_app; auto].
Qed.

Lemma only_if {A} (b : bool) (m1 m2 : M A) :
  only_ops P m1 -> only_ops P m2 -> only_ops P (if b then m1 else m2).
Proof. destruct b; auto. Qed.

Lemma only_write_reg (env : nat -> bus_op -> Z) (reg len v : Z) :
  P (I2cSend reg len v) -> only_ops P (imx258_write_reg env reg len v).
Proof.
  intros Hop. unfold imx258_write_reg.
  apply only_if; [apply only_ret|].
  apply only_bind; [apply only_call; exact Hop|].
  intros n. apply only_if; apply only_ret.
Qed.

Lemma only_write_regs (env : nat -> bus_op -> Z) (regs : list imx258_reg) :
  Forall (fun r => P (I2cSend (address r) 1 (val r))) regs ->
  only_ops P (imx258_write_regs env regs).
Proof.
  induction regs as [|r regs IH]; intros Hall; simpl; [apply only_ret|].
  inversion Hall; subst.
  apply only_bind; [apply only_write_reg; assumption|].
  intros a. apply only_if; [apply IH; assumption | apply only_ret].
Qed.

End OnlyOps.

Create HintDb only_ops.
#[local] Hint Resolve only_ret only_gets only_call only_bind only_if
  only_write_reg : only_ops.

Lemma only_adjust_exposure_range (P : bus_op -> Prop) :
  only_ops P imx258_adjust_exposure_range.
Proof.
  unfold imx258_adjust_exposure_range, v4l2_ctrl_modify_range.
  apply only_bind; [apply only_gets|]. intros s.
  apply only_modify. reflexivity.
Qed.

Lemma only_set_frame_length (env : nat -> bus_op -> Z) (v : Z) :
  only_ops not_mode_select (imx258_set_frame_length env v).
Proof.
  unfold imx258_set_frame_length. destruct (frame_length_shift v) as [sh v'].
  apply only_bind; [apply only_modify; reflexivity|]. intros _.
  apply only_bind; [apply only_write_reg; discriminate|]. intros r.
  apply only_if; [apply only_ret | apply only_write_reg; discriminate].
Qed.

#[local] Hint Resolve only_adjust_exposure_range only_set_frame_length : only_ops.
#[local] Hint Extern 1 (not_mode_select _) => (simpl; discriminate) : only_ops.
#[local] Hint Extern 1 (not_mode_select _) => exact I : only_ops.

(** The driver's control handler never writes the mode-select register. *)
Lemma only_set_ctrl (env : nat -> bus_op -> Z) (id : ctrl_id) :
  only_ops not_mode_select (imx258_set_ctrl env id).
Proof.
  unfold imx258_set_ctrl, ctrl_val.
  apply only_bind; [apply only_if; auto with only_ops|]. intros _.
  apply only_bind; [auto with only_ops|]. intros in_use.
  apply only_if; [auto with only_ops|].
  apply only_bind; [auto with only_ops|]. intros v.
  apply only_bind; [|intros; auto with only_ops].
  destruct id; eauto 10 with only_ops.
Qed.

Lemma only_ctrl_handler_setup (env : nat -> bus_op -> Z) (l : list ctrl_id) :
  only_ops not_mode_select (v4l2_ctrl_handler_setup env l).
Proof.
  induction l as [|id l IH]; simpl; [apply only_ret|].
  apply only_bind; [apply only_set_ctrl|]. intros r.
  apply only_if; [exact IH | apply only_ret].
Qed.

(** ** The start steps leave the streaming flag alone *)

Definition keeps_streaming {A} (m : M A) : Prop :=
  forall s, streaming (snd (m s)) = streaming s.

Lemma keeps_ret {A} (a : A) : keeps_streaming (ret a).
Proof. intros s. reflexivity. Qed.

Lemma keeps_gets {A} (f : imx258 -> A) : keeps_streaming (gets f).
Proof. intros s. reflexivity. Qed.

Lemma keeps_modify (f : imx258 -> imx258) :
  (forall s, streaming (f s) = streaming s) -> keeps_streaming (modify f).
Proof. intros Hf s. apply Hf. Qed.

Lemma keeps_call (env : nat -> bus_op -> Z) (op : bus_op) :
  keeps_streaming (call env op).
Proof. intros s. reflexivity. Qed.

Lemma keeps_bind {A B} (m : M A) (k : A -> M B) :
  keeps_streaming m -> (forall a, keeps_streaming (k a)) ->
  keeps_streaming (bind m k).
Proof.
  intros Hm Hk s. unfold bind. specialize (Hm s).
  destruct (m s) as [a s1]. simpl in Hm. rewrite Hk. exact Hm.
Qed.

Lemma keeps_if {A} (b : bool) (m1 m2 : M A) :
  keeps_streaming m1 -> keeps_streaming m2 ->
  keeps_streaming (if b then m1 else m2).
Proof. destruct b; auto. Qed.

Create HintDb keeps.
#[local] Hint Resolve keeps_ret keeps_gets keeps_call keeps_bind keeps_if : keeps.
#[local] Hint Extern 1 (keeps_streaming (modify _)) =>
  (apply keeps_modify; reflexivity) : keeps.

Lemma keeps_write_reg (env : nat -> bus_op -> Z) (reg len v : Z) :
  keeps_streaming (imx258_write_reg env reg len v).
Proof. unfold imx258_write_reg. auto with keeps. Qed.

#[local] Hint Resolve keeps_write_reg : keeps.

Lemma keeps_write_regs (env : nat -> bus_op -> Z) (regs : list imx258_reg) :
  keeps_streaming (imx258_write_regs env regs).
Proof. induction regs; simpl; auto with keeps. Qed.

Lemma keeps_set_frame_length (env : nat -> bus_op -> Z) (v : Z) :
  keeps_streaming (imx258_set_frame_length env v).
Proof.
  unfold imx258_set_frame_length. destruct (frame_length_shift v).
  auto 6 with keeps.
Qed.

#[local] Hint Resolve keeps_set_frame_length : keeps.

Lemma keeps_set_ctrl (env : nat -> bus_op -> Z) (id : ctrl_id) :
  keeps_streaming (imx258_set_ctrl env id).
Proof.
  unfold imx258_set_ctrl, ctrl_val, imx258_adjust_exposure_range,
    v4l2_ctrl_modify_range.
  apply keeps_bind; [apply keeps_if; auto 6 with keeps|]. intros _.
  apply keeps_bind; [auto with keeps|]. intros in_use.
  apply keeps_if; [auto with keeps|].
  apply keeps_bind; [auto with keeps|]. intros v.
  apply keeps_bind; [|intros; auto with keeps].
  destruct id; auto 10 with keeps.
Qed.

Lemma keeps_ctrl_handler_setup (env : nat -> bus_op -> Z) (l : list ctrl_id) :
  keeps_streaming (v4l2_ctrl_handler_setup env l).
Proof.
  induction l as [|id l IH]; simpl; [apply keeps_ret|].
  apply keeps_bind; [apply keeps_set_ctrl|]. intros r.
  apply keeps_if; [exact IH | apply keeps_ret].
Qed.

Lemma keeps_run_steps (steps : list (M Z)) :
  Forall keeps_streaming steps -> keeps_streaming (run_steps steps).
Proof.
  induction 1; simpl; auto with keeps.
Qed.

Lemma keeps_start_steps (env : nat -> bus_op -> Z) :
  keeps_streaming (run_steps [step_common_regs env; step_mode_regs env;
                              step_ctrl_commit env; step_stream_on env]).
Proof.
  apply keeps_run_steps.
  repeat constructor; unfold step_common_regs, step_mode_regs,
    step_ctrl_commit, step_stream_on;
    auto 8 using keeps_write_regs, keeps_ctrl_handler_setup with keeps.
Qed.

Lemma forallb_not_mode_select (regs : list imx258_reg) :
  forallb (fun r => negb (address r =? IMX258_REG_MODE_SELECT)) regs = true ->
  Forall (fun r => not_mode_select (I2cSend (address r) 1 (val r))) regs.
Proof.
  intros H. apply Forall_forall. intros r Hr.
  rewrite forallb_forall in H. specialize (H r Hr).
  simpl. apply Z.eqb_neq. destruct (address r =? IMX258_REG_MODE_SELECT); auto.
Qed.

(** No register table of the driver touches the mode-select register. *)
Lemma tables_not_mode_select :
  Forall (fun r => not_mode_select (I2cSend (address r) 1 (val r)))
    mode_common_regs /\
  Forall (fun m => Forall (fun r => not_mode_select (I2cSend (address r) 1 (val r)))
                          (reg_list m))
    supported_modes_10bit.
Proof.
  split; [apply forallb_not_mode_select; vm_compute; reflexivity|].
  unfold supported_modes_10bit.
  do 3 (apply Forall_cons;
    [apply forallb_not_mode_select; vm_compute; reflexivity|]).
  apply Forall_nil.
Qed.

(** (C1) Starting a stream from standby is the spec's sequence: power up,
    then in order the common registers (only if not yet written this power
    cycle), the mode's register list, the bulk control commit and the
    mode-select write to streaming, the first failing step aborting the
    rest with its error as the result.  The device ends streaming exactly
    when the result is 0, so on any failure it stays in standby; and
    none of the first three steps writes the mode-select register, so a
    failure there (the bulk commit included) means mode-select is never
    written. *)
Theorem set_stream_start_sequence (env : nat -> bus_op -> Z) (s : imx258)
    (enable : Z) :
  streaming s = false -> enable <> 0 ->
  imx258_set_stream env enable s = stream_start_spec env s /\
  streaming (snd (imx258_set_stream env enable s))
    = (fst (imx258_set_stream env enable s) =? 0) /\
  only_ops not_mode_select (step_common_regs env) /\
  (forall s0, In (mode s0) supported_modes_10bit ->
     exists ops, trace (snd (step_mode_regs env s0)) = trace s0 ++ ops /\
                 Forall not_mode_select ops) /\
  only_ops not_mode_select (step_ctrl_commit env).
Proof.
  intros Hs Hen.
  assert (E : imx258_set_stream env enable s = stream_start_spec env s).
  { unfold imx258_set_stream, stream_start_spec, call, bind, gets, modify, ret.
    rewrite Hs. cbv beta iota.
    replace (Z.b2z false =? enable) with false
      by (symmetry; apply Z.eqb_neq; simpl; lia).
    replace (negb (enable =? 0)) with true
      by (destruct (Z.eqb_spec enable 0); [lia | reflexivity]).
    destruct (env (length (trace s)) PmGetSync <? 0); [reflexivity|].
    rewrite start_streaming_steps.
    destruct (run_steps _ _) as [r s2].
    destruct (r =? 0) eqn:Er; simpl; [|reflexivity].
    apply Z.eqb_eq in Er. subst. reflexivity. }
  destruct tables_not_mode_select as [Hcommon Hmodes].
  split; [exact E|]. split; [|split; [|split]].
  - rewrite E. unfold stream_start_spec, call, bind, gets, modify, ret.
    cbv beta iota.
    destruct (Z.ltb_spec (env (length (trace s)) PmGetSync) 0) as [Hlt|Hge].
    + simpl. rewrite Hs. symmetry. apply Z.eqb_neq. lia.
    + pose proof (keeps_start_steps env
        (set_trace (trace s ++ [PmGetSync]) s)) as Hk.
      destruct (run_steps _ _) as [r s2]. simpl in Hk.
      destruct (r =? 0) eqn:Er; simpl; [reflexivity|].
      rewrite Hk, Hs. symmetry. exact Er.
  - unfold step_common_regs.
    apply only_bind; [apply only_gets|]. intros written.
    apply only_if; [apply only_ret|].
    apply only_bind; [apply only_write_regs; exact Hcommon|]. intros r.
    apply only_if; [|apply only_ret].
    apply only_bind; [apply only_modify; reflexivity | intros; apply only_ret].
  - intros s0 Hin. unfold step_mode_regs, bind, gets. simpl.
    rewrite Forall_forall in Hmodes.
    apply (only_write_regs not_mode_select env (reg_list (mode s0))
             (Hmodes _ Hin) s0).
  - apply only_ctrl_handler_setup.
Qed.

Lemma set_stream_start_sequence_witness :
  streaming dev_standby = false /\ 1 <> 0 /\
  imx258_set_stream env_ok 1 dev_standby = stream_start_spec env_ok dev_standby.
Proof.
  assert (H1 : streaming dev_standby = false) by reflexivity.
  assert (H2 : 1 <> 0) by discriminate.
  refine (conj H1 (conj H2 _)).
  exact (proj1 (set_stream_start_sequence env_ok dev_standby 1 H1 H2)).
Defined.

(** A failure injected in the bulk control commit (the analogue gain write
    fails): the result is [-EIO], the device stays in standby, and the
    mode-select register is never written. *)
Example start_commit_failure :
  let (r, s') := imx258_set_stream (env_fail_reg IMX258_REG_ANALOG_GAIN) 1
                   dev_standby in
  r = - EIO /\ streaming s' = false /\
  Forall not_mode_select (trace s').
Proof.
  vm_compute. split; [reflexivity|]. split; [reflexivity|].
  repeat constructor; discriminate.
Qed.

(** * Further properties of the driver *)

(** ** Bit-level helpers for the register byte layouts *)

Lemma tb_255 k : Z.testbit 255 k = (0 <=? k) && (k <? 8).
Proof.
  change 255 with (Z.ones 8).
  destruct (Z.leb_spec 0 k); [|apply Z.testbit_neg_r; lia].
  destruct (Z.ltb_spec k 8).
  - apply Z.ones_spec_low; lia.
  - apply Z.ones_spec_high; lia.
Qed.

Lemma tb_mod a w k : 0 <= w ->
  Z.testbit (a mod 2 ^ w) k = (k <? w) && Z.testbit a k.
Proof.
  intros Hw. destruct (Z.leb_spec 0 k).
  - destruct (Z.ltb_spec k w).
    + apply Z.mod_pow2_bits_low; lia.
    + apply Z.mod_pow2_bits_high; lia.
  - rewrite !Z.testbit_neg_r by lia. symmetry. apply andb_false_r.
Qed.

Lemma tb_shiftl a s k : 0 <= s ->
  Z.testbit (Z.shiftl a s) k = (s <=? k) && Z.testbit a (k - s).
Proof.
  intros Hs. destruct (Z.leb_spec 0 k).
  - rewrite Z.shiftl_spec by lia.
    destruct (Z.leb_spec s k); [reflexivity|]. apply Z.testbit_neg_r; lia.
  - rewrite Z.testbit_neg_r by lia. destruct (Z.leb_spec s k); [lia|reflexivity].
Qed.

Lemma tb_shiftr a s k : 0 <= s ->
  Z.testbit (Z.shiftr a s) k = (0 <=? k) && Z.testbit a (k + s).
Proof.
  intros Hs. destruct (Z.leb_spec 0 k).
  - apply Z.shiftr_spec; lia.
  - apply Z.testbit_neg_r; lia.
Qed.

Ltac cmp_resolve :=
  repeat match goal with
    | |- context [?a <? ?b] =>
        first [ rewrite (proj2 (Z.ltb_lt a b)) by lia
              | rewrite (proj2 (Z.ltb_ge a b)) by lia ]
    | |- context [?a <=? ?b] =>
        first [ rewrite (proj2 (Z.leb_le a b)) by lia
              | rewrite (proj2 (Z.leb_gt a b)) by lia ]
    end.

Ltac bits_solve :=
  apply Z.bits_inj'; intros ?n ?Hn;
  repeat first
    [ rewrite Z.lor_spec | rewrite Z.land_spec
    | rewrite tb_shiftl by lia | rewrite tb_shiftr by lia
    | rewrite tb_mod by lia | rewrite tb_255 | rewrite Z.testbit_0_l ];
  assert (n < 8 \/ 8 <= n < 16 \/ 16 <= n < 24 \/ 24 <= n < 32 \/ 32 <= n)
    as [?|[?|[?|[?|?]]]] by lia;
  cmp_resolve; simpl;
  rewrite ?andb_true_r, ?andb_false_r, ?orb_false_r, ?orb_false_l;
  try reflexivity; try (f_equal; lia).

Ltac red_buf :=
  cbv beta iota zeta delta [seq map Nat.ltb Nat.leb Z.to_nat Z.gtb Z.compare
    Z.sub Z.add Z.opp Z.pos_sub Pos.compare Pos.compare_cont nth skipn firstn
    put_unaligned_be16 put_unaligned_be32 app negb Z.eqb Pos.eqb Nat.sub
    Pos.to_nat Pos.iter_op Nat.add Pos.add Pos.succ Pos.pred_double Z.double
    Z.succ_double Z.pred_double].

(** [imx258_write_reg] and [imx258_read_reg] agree on the wire format:
    for [1 <= len <= 4] the write buffer is [len + 2] bytes, starts with the
    two address bytes that [imx258_read_reg] sends, and reading its value
    bytes back through [imx258_read_reg] gives the low [8 * len] bits of
    the written value. *)
Theorem write_reg_read_reg_roundtrip (reg len v val0 : Z) :
  1 <= len <= 4 ->
  let buf := imx258_write_reg_buf reg len v in
  length buf = Z.to_nat (len + 2) /\
  firstn 2 buf = imx258_read_addr_buf reg /\
  imx258_read_reg (fun _ _ => 2) (fun _ _ i => nth i (skipn 2 buf) 0)
    reg len val0 = (0, v mod 2 ^ (8 * len)).
Proof.
  intros Hl buf.
  assert (len = 1 \/ len = 2 \/ len = 3 \/ len = 4) as Hc by lia.
  subst buf. unfold imx258_read_reg, imx258_write_reg_buf.
  destruct Hc as [ -> | [ -> | [ -> | -> ]]];
    (set (x := u32 (Z.shiftl (u32 v) (8 * (4 - _)))); red_buf;
     (split; [reflexivity|]); (split; [reflexivity|]);
     f_equal; unfold get_unaligned_be32; cbn [nth]; subst x; unfold u32;
     bits_solve).
Qed.

Lemma write_reg_read_reg_roundtrip_witness :
  1 <= 2 <= 4 /\
  imx258_read_reg (fun _ _ => 2)
    (fun _ _ i => nth i (skipn 2 (imx258_write_reg_buf IMX258_REG_EXPOSURE 2
                                    0x1234)) 0)
    IMX258_REG_EXPOSURE 2 0 = (0, 0x1234 mod 2 ^ (8 * 2)).
Proof.
  assert (H : 1 <= 2 <= 4) by lia. split; [exact H|].
  exact (proj2 (proj2 (write_reg_read_reg_roundtrip IMX258_REG_EXPOSURE 2
                         0x1234 0 H))).
Defined.

Lemma lor_shiftl_low a b k : 0 <= k -> 0 <= b < 2 ^ k ->
  Z.lor (Z.shiftl a k) b = a * 2 ^ k + b.
Proof.
  intros Hk Hb. rewrite <- Z.lxor_lor, <- Z.add_nocarry_lxor.
  - rewrite Z.shiftl_mul_pow2 by lia. reflexivity.
  - apply Z.bits_inj'; intros n Hn. rewrite Z.land_spec, Z.testbit_0_l.
    rewrite <- (Z.mod_small b (2 ^ k)) by lia.
    rewrite tb_shiftl, tb_mod by lia.
    destruct (Z.leb_spec k n), (Z.ltb_spec n k); simpl; try lia; auto;
    apply andb_false_r.
  - apply Z.bits_inj'; intros n Hn. rewrite Z.land_spec, Z.testbit_0_l.
    rewrite <- (Z.mod_small b (2 ^ k)) by lia.
    rewrite tb_shiftl, tb_mod by lia.
    destruct (Z.leb_spec k n), (Z.ltb_spec n k); simpl; try lia; auto;
    apply andb_false_r.
Qed.

(** [imx258_identify_module] accepts exactly the chip whose two ID bytes
    at register 0x0016 are 0x02, 0x58; a short transfer or any other ID
    gives [-EIO]. *)
Theorem identify_module_chip_id (xfer : list Z -> Z -> Z)
    (rx : list Z -> Z -> nat -> Z) :
  (forall a l i, 0 <= rx a l i < 256) ->
  imx258_identify_module xfer rx =
    if negb (xfer [0x00; 0x16] 2 =? 2) then - EIO
    else if (rx [0x00; 0x16] 2 0%nat =? 0x02) && (rx [0x00; 0x16] 2 1%nat =? 0x58)
    then 0 else - EIO.
Proof.
  intros Hrx.
  unfold imx258_identify_module, imx258_read_reg.
  change (imx258_read_addr_buf IMX258_REG_CHIP_ID) with [0x00; 0x16].
  cbv beta iota zeta delta [IMX258_REG_VALUE_16BIT Z.gtb Z.compare Pos.compare
    Pos.compare_cont seq map Z.to_nat Pos.to_nat Pos.iter_op Nat.add Nat.sub
    Nat.ltb Nat.leb].
  destruct (xfer [0; 22] 2 =? 2); [|reflexivity]. cbn [negb].
  unfold get_unaligned_be32. cbn [nth Nat.sub].
  pose proof (Hrx [0; 22] 2 0%nat). pose proof (Hrx [0; 22] 2 1%nat).
  set (b0 := rx [0; 22] 2 0%nat) in *. set (b1 := rx [0; 22] 2 1%nat) in *.
  rewrite !Z.shiftl_0_l, !Z.lor_0_l.
  rewrite (lor_shiftl_low b0 b1 8) by (try change (2 ^ 8) with 256; lia).
  change (2 ^ 8) with 256. cbn [negb Z.eqb]. simpl Z.eqb. cbn [negb].
  unfold IMX258_CHIP_ID.
  destruct (Z.eqb_spec b0 2), (Z.eqb_spec b1 0x58); simpl;
    destruct (Z.eqb_spec (b0 * 256 + b1) 0x258); simpl; try reflexivity; lia.
Qed.

Lemma identify_module_chip_id_witness :
  (forall (a : list Z) (l : Z) (i : nat), 0 <= nth i [0x02; 0x58] 0 < 256) /\
  imx258_identify_module (fun _ _ => 2) (fun _ _ i => nth i [0x02; 0x58] 0)
    = 0.
Proof.
  assert (H : forall (a : list Z) (l : Z) (i : nat),
            0 <= nth i [0x02; 0x58] 0 < 256).
  { intros a l [|[|i]]; simpl; [lia | lia | destruct i; lia]. }
  split; [exact H|].
  rewrite (identify_module_chip_id (fun _ _ => 2)
             (fun _ _ i => nth i [0x02; 0x58] 0) H).
  reflexivity.
Defined.

Lemma get_format_code_flips_only (h v code : Z) :
  imx258_get_format_code h v code = mainline_imx258_get_format_code h v.
Proof.
  unfold imx258_get_format_code, mainline_imx258_get_format_code.
  pose proof (code_index_le codes code) as Hle. simpl length in *.
  destruct (code_index codes code) as [|[|[|[|[|k]]]]]; try lia;
    destruct (h =? 0), (v =? 0); reflexivity.
Qed.

(** The driver's [imx258_get_format_code] ignores the requested code: it
    returns the same flip-dependent Bayer code as the mainline driver's
    function. *)
Theorem soho_format_code_matches_mainline (h v code : Z) :
  imx258_get_format_code h v code = mainline_imx258_get_format_code h v.
Proof. apply get_format_code_flips_only. Qed.

(** [imx258_enum_mbus_code] lists exactly one code per pad: the
    flip-dependent Bayer code on the image pad, the sensor-data code on the
    metadata pad; any other pad or index gives [-EINVAL]. *)
Theorem enum_mbus_code_one_per_pad (h v pad index : Z) :
  0 <= pad -> 0 <= index ->
  imx258_enum_mbus_code h v pad index =
    if (pad <? NUM_PADS) && (index =? 0)
    then (0, Some (if pad =? IMAGE_PAD then mainline_imx258_get_format_code h v
                   else MEDIA_BUS_FMT_SENSOR_DATA))
    else (- EINVAL, None).
Proof.
  intros Hp Hi. unfold imx258_enum_mbus_code.
  rewrite get_format_code_flips_only.
  unfold NUM_PADS, IMAGE_PAD. simpl length.
  change (Z.of_nat 4 / 4) with 1.
  destruct (Z.geb_spec pad 2), (Z.ltb_spec pad 2); try lia; [reflexivity|].
  destruct (Z.eqb_spec pad 0), (Z.eqb_spec index 0);
    try destruct (Z.geb_spec index 1); try destruct (Z.gtb_spec index 0);
    simpl; try lia; reflexivity.
Qed.

Lemma enum_mbus_code_one_per_pad_witness :
  0 <= METADATA_PAD /\ 0 <= 0 /\
  imx258_enum_mbus_code 1 0 METADATA_PAD 0 = (0, Some MEDIA_BUS_FMT_SENSOR_DATA).
Proof.
  assert (H1 : 0 <= METADATA_PAD) by (unfold METADATA_PAD; lia).
  assert (H2 : 0 <= 0) by lia.
  split; [exact H1|]. split; [exact H2|].
  rewrite (enum_mbus_code_one_per_pad 1 0 METADATA_PAD 0 H1 H2).
  reflexivity.
Defined.

(** On the image pad, [imx258_enum_frame_size] accepts only the current
    Bayer code and lists the supported modes by index, each as a single
    discrete size; past the last mode it gives [-EINVAL]. *)
Theorem enum_frame_size_image_pad (h v index code : Z) :
  0 <= index ->
  imx258_enum_frame_size h v IMAGE_PAD index code =
    if code =? mainline_imx258_get_format_code h v then
      match nth_error supported_modes_10bit (Z.to_nat index) with
      | Some m => (0, Some {| fse_min_width := width m; fse_max_width := width m;
                              fse_min_height := height m;
                              fse_max_height := height m |})
      | None => (- EINVAL, None)
      end
    else (- EINVAL, None).
Proof.
  intros Hi. unfold imx258_enum_frame_size.
  rewrite get_format_code_flips_only.
  change (IMAGE_PAD >=? NUM_PADS) with false. change (IMAGE_PAD =? IMAGE_PAD) with true.
  cbv iota beta.
  assert (Hm : In (mainline_imx258_get_format_code h v) codes).
  { unfold mainline_imx258_get_format_code. destruct (h =? 0), (v =? 0); simpl; tauto. }
  destruct (Z.eqb_spec code (mainline_imx258_get_format_code h v)) as [->|Hne].
  - assert (Ht : get_mode_table (mainline_imx258_get_format_code h v) =
                 (Some supported_modes_10bit, 3)).
    { unfold mainline_imx258_get_format_code. destruct (h =? 0), (v =? 0); reflexivity. }
    rewrite Ht. cbn [negb].
    destruct (Z.geb_spec index 3).
    + rewrite (proj2 (nth_error_None supported_modes_10bit (Z.to_nat index)))
        by (simpl; lia). reflexivity.
    + assert (Hlt : (Z.to_nat index < 3)%nat) by lia.
      destruct (Z.to_nat index) as [|[|[|k]]]; try lia; reflexivity.
  - unfold get_mode_table.
    destruct ((code =? MEDIA_BUS_FMT_SRGGB10_1X10) || (code =? MEDIA_BUS_FMT_SGRBG10_1X10)
       || (code =? MEDIA_BUS_FMT_SGBRG10_1X10) || (code =? MEDIA_BUS_FMT_SBGGR10_1X10)).
    + destruct (index >=? Z.of_nat (length supported_modes_10bit)); [reflexivity|].
      reflexivity.
    + rewrite (proj2 (Z.geb_le index 0)) by lia. reflexivity.
Qed.

Lemma enum_frame_size_image_pad_witness :
  0 <= 1 /\
  imx258_enum_frame_size 0 0 IMAGE_PAD 1 MEDIA_BUS_FMT_SRGGB10_1X10 =
    (0, Some {| fse_min_width := 2048; fse_max_width := 2048;
                fse_min_height := 1560; fse_max_height := 1560 |}).
Proof.
  assert (H : 0 <= 1) by lia. split; [exact H|].
  rewrite (enum_frame_size_image_pad 0 0 1 MEDIA_BUS_FMT_SRGGB10_1X10 H).
  reflexivity.
Defined.

(** The ACTIVE image format [imx258_get_pad_format] reports for a
    supported mode is one [imx258_enum_frame_size] enumerates. *)
Theorem active_format_is_enumerated (h v : Z) (mode : imx258_mode)
    (fmt_code : Z) (t : try_state) (f : v4l2_mbus_framefmt) :
  In mode supported_modes_10bit ->
  let '(r, f', _) := imx258_get_pad_format h v mode fmt_code t IMAGE_PAD
                       V4L2_SUBDEV_FORMAT_ACTIVE f in
  r = 0 /\
  exists index, 0 <= index /\
    imx258_enum_frame_size h v IMAGE_PAD index (mf_code f') =
      (0, Some {| fse_min_width := mf_width f'; fse_max_width := mf_width f';
                  fse_min_height := mf_height f'; fse_max_height := mf_height f' |}).
Proof.
  intros Hin. unfold imx258_get_pad_format.
  change (IMAGE_PAD >=? NUM_PADS) with false.
  change (V4L2_SUBDEV_FORMAT_ACTIVE =? V4L2_SUBDEV_FORMAT_TRY) with false.
  change (IMAGE_PAD =? IMAGE_PAD) with true. cbv iota beta.
  split; [reflexivity|].
  apply In_nth_error in Hin as [k Hk].
  exists (Z.of_nat k). split; [lia|].
  unfold imx258_enum_frame_size.
  rewrite !get_format_code_flips_only.
  change (IMAGE_PAD >=? NUM_PADS) with false.
  change (IMAGE_PAD =? IMAGE_PAD) with true. cbv iota beta.
  cbn [mf_code mf_width mf_height set_mf_code imx258_update_image_pad_format].
  assert (Ht : get_mode_table (mainline_imx258_get_format_code h v) =
               (Some supported_modes_10bit, 3)).
  { unfold mainline_imx258_get_format_code. destruct (h =? 0), (v =? 0); reflexivity. }
  rewrite Ht, Z.eqb_refl, Nat2Z.id, Hk.
  assert (Hlt : (k < 3)%nat).
  { change 3%nat with (length supported_modes_10bit).
    apply nth_error_Some. rewrite Hk. discriminate. }
  destruct (Z.geb_spec (Z.of_nat k) 3); [lia|]. reflexivity.
Qed.

Lemma active_format_is_enumerated_witness :
  In mode_4208x3120 supported_modes_10bit /\
  let '(r, f', _) := imx258_get_pad_format 1 1 mode_4208x3120 0 try_zero
                       IMAGE_PAD V4L2_SUBDEV_FORMAT_ACTIVE fmt_zero in
  r = 0 /\
  exists index, 0 <= index /\
    imx258_enum_frame_size 1 1 IMAGE_PAD index (mf_code f') =
      (0, Some {| fse_min_width := mf_width f'; fse_max_width := mf_width f';
                  fse_min_height := mf_height f'; fse_max_height := mf_height f' |}).
Proof.
  assert (H : In mode_4208x3120 supported_modes_10bit) by (left; reflexivity).
  split; [exact H|].
  exact (active_format_is_enumerated 1 1 mode_4208x3120 0 try_zero fmt_zero H).
Defined.

(** After [imx258_open], the TRY formats are the full 4208x3120 image with
    the current Bayer code and the single embedded-data line, and the TRY
    crop is the whole pixel array. *)
Theorem open_then_get_try_format (h v h' v' : Z) (t : try_state)
    (f : v4l2_mbus_framefmt) :
  let (r, t1) := imx258_open h v t in
  r = 0 /\
  imx258_get_pad_format h' v' mode_4208x3120 0 t1 IMAGE_PAD
    V4L2_SUBDEV_FORMAT_TRY f =
    (0, {| mf_width := 4208; mf_height := 3120;
           mf_code := mainline_imx258_get_format_code h' v';
           mf_field := V4L2_FIELD_NONE |}, 
     {| try_fmt_img := {| mf_width := 4208; mf_height := 3120;
           mf_code := mainline_imx258_get_format_code h' v';
           mf_field := V4L2_FIELD_NONE |};
        try_fmt_meta := try_fmt_meta t1; try_crop := try_crop t1 |}) /\
  fst (fst (imx258_get_pad_format h' v' mode_4208x3120 0 t1 METADATA_PAD
              V4L2_SUBDEV_FORMAT_TRY f)) = 0 /\
  snd (fst (imx258_get_pad_format h' v' mode_4208x3120 0 t1 METADATA_PAD
              V4L2_SUBDEV_FORMAT_TRY f)) =
    {| mf_width := IMX258_EMBEDDED_LINE_WIDTH;
       mf_height := IMX258_NUM_EMBEDDED_LINES;
       mf_code := MEDIA_BUS_FMT_SENSOR_DATA; mf_field := V4L2_FIELD_NONE |} /\
  try_crop t1 = {| r_left := 0; r_top := 0; r_width := 4208; r_height := 3120 |}.
Proof.
  unfold imx258_open, imx258_get_pad_format.
  rewrite !get_format_code_flips_only.
  repeat split.
Qed.

(** [imx258_check_hwcfg] accepts exactly an endpoint with two data lanes
    and the single link frequency 450 MHz, rejects everything else with
    [-EINVAL], and once an endpoint was found it always frees the parsed
    endpoint and then drops the handle, last. *)
Theorem check_hwcfg_accepts (endpoint : bool) (parse : Z)
    (ep : v4l2_fwnode_endpoint) :
  let (r, ops) := imx258_check_hwcfg endpoint parse ep in
  (r = 0 <-> endpoint = true /\ parse = 0 /\ num_data_lanes ep = 2 /\
             link_frequencies ep = [IMX258_DEFAULT_LINK_FREQ]) /\
  (r <> 0 -> r = - EINVAL) /\
  (endpoint = true ->
   exists pre, ops = pre ++ [V4l2FwnodeEndpointFree; FwnodeHandlePut] /\
               ~ In FwnodeHandlePut pre).
Proof.
  unfold imx258_check_hwcfg.
  destruct endpoint; cbn [negb].
  2: { split; [split; [discriminate | intros (H & _); discriminate]|].
       split; [reflexivity | discriminate]. }
  split; [|split].
  - destruct (Z.eqb_spec parse 0); cbn [negb];
      [|split; [discriminate | intros (_ & H & _); contradiction]].
    destruct (Z.eqb_spec (num_data_lanes ep) 2); cbn [negb];
      [|split; [discriminate | intros (_ & _ & H & _); contradiction]].
    destruct (link_frequencies ep) as [|f [|f2 l]]; cbn [length Nat.eqb negb orb nth].
    + split; [discriminate | intros (_ & _ & _ & H); discriminate].
    + destruct (Z.eqb_spec f IMX258_DEFAULT_LINK_FREQ) as [->|]; cbn [negb].
      * tauto.
      * split; [discriminate | intros (_ & _ & _ & H); congruence].
    + split; [discriminate | intros (_ & _ & _ & H); discriminate].
  - repeat case_if; try reflexivity; intros H; contradiction.
  - intros _. exists [FwnodeGraphGetNextEndpoint; V4l2FwnodeEndpointAllocParse].
    split; [reflexivity|]. simpl. intuition discriminate.
Qed.

(** [imx258_power_on] either enables everything (one regulator
    reference, which [imx258_power_off] gives back while forcing the common
    registers to be rewritten), or fails without releasing reset and without
    keeping a regulator reference taken by a successful enable. *)
Theorem power_on_releases_on_failure (penv : pwr_op -> Z) (s : imx258) :
  let (r, ops) := imx258_power_on penv in
  (r = 0 ->
     penv RegulatorBulkEnable = 0 /\ penv ClkPrepareEnable = 0 /\
     regulator_balance ops = 1 /\
     ops = [RegulatorBulkEnable; ClkPrepareEnable; GpiodSetValueCansleep 1;
            UsleepRange 8000 9000] /\
     let '(r', ops', s') := imx258_power_off s in
     r' = 0 /\ regulator_balance (ops ++ ops') = 0 /\
     common_regs_written s' = false) /\
  (r <> 0 ->
     ~ In (GpiodSetValueCansleep 1) ops /\
     ((r = penv RegulatorBulkEnable /\ ops = [RegulatorBulkEnable]) \/
      (penv RegulatorBulkEnable = 0 /\ r = penv ClkPrepareEnable /\
       regulator_balance ops = 0 /\ ~ In ClkDisableUnprepare ops))).
Proof.
  unfold imx258_power_on.
  destruct (Z.eqb_spec (penv RegulatorBulkEnable) 0) as [E1|E1]; cbn [negb].
  - destruct (Z.eqb_spec (penv ClkPrepareEnable) 0) as [E2|E2]; cbn [negb].
    + split; [|intros H; contradiction H; reflexivity].
      intros _. repeat split; auto.
    + split; [intros H; contradiction|].
      intros _. split; [simpl; intuition discriminate|].
      right. split; [exact E1|]. split; [reflexivity|]. split; [reflexivity|].
      simpl; intuition discriminate.
  - split; [intros H; contradiction|].
    intros _. split; [simpl; intuition discriminate|].
    left. split; reflexivity.
Qed.

Lemma set_trace_set_trace t t' s : set_trace t (set_trace t' s) = set_trace t s.
Proof. destruct s; reflexivity. Qed.

Lemma set_trace_same s : set_trace (trace s) s = s.
Proof. destruct s; reflexivity. Qed.

(** [imx258_write_regs] sends the table in order and stops at the first
    transfer that is not complete: it issues a prefix of the table, every
    transfer before the last one issued succeeded, and it returns 0 after
    the whole table or [-EIO] right after the failing entry.  Only the
    trace of the device changes. *)
Theorem write_regs_first_failure (env : nat -> bus_op -> Z)
    (regs : list imx258_reg) (s : imx258) :
  let (r, s') := imx258_write_regs env regs s in
  s' = set_trace (trace s') s /\
  exists k, (k <= length regs)%nat /\
    trace s' = trace s ++ firstn k (map reg_write_op regs) /\
    (forall i, (i < k)%nat -> (r = 0 \/ (i < k - 1)%nat) ->
       env (length (trace s) + i)%nat (nth i (map reg_write_op regs) (I2cSend 0 0 0))
         = 1 + 2) /\
    ((r = 0 /\ k = length regs) \/
     (r = - EIO /\ (1 <= k)%nat /\
      env (length (trace s) + (k - 1))%nat
        (nth (k - 1) (map reg_write_op regs) (I2cSend 0 0 0)) <> 1 + 2)).
Proof.
  revert s. induction regs as [|r0 regs IH]; intros s.
  - simpl. split; [symmetry; apply set_trace_same|].
    exists 0%nat. rewrite app_nil_r. split; [lia|]. split; [reflexivity|].
    split; [intros; lia|]. left. auto.
  - cbn [imx258_write_regs]. unfold imx258_write_reg, bind, call, ret.
    change (1 >? 4) with false. cbv iota beta.
    destruct (Z.eqb_spec (env (length (trace s)) (I2cSend (address r0) 1 (val r0))) (1 + 2))
      as [Ea|Ea]; cbn [Z.eqb Pos.eqb]; cbv beta iota zeta.
    + specialize (IH (set_trace (trace s ++ [I2cSend (address r0) 1 (val r0)]) s)).
      destruct (imx258_write_regs env regs _) as [r s'] eqn:Ew.
      destruct IH as (Hs' & k & Hk & Ht & Hok & Hend).
      cbn [trace set_trace] in *.
      split. { rewrite Hs' at 1. apply set_trace_set_trace. }
      exists (S k). split; [simpl; lia|].
      split. { rewrite Ht, <- app_assoc. reflexivity. }
      split.
      * intros [|i] Hi Hc; [rewrite Nat.add_0_r; exact Ea|].
        cbn [map nth]. rewrite length_app in Hok. cbn [length] in Hok.
        replace (length (trace s) + S i)%nat with (length (trace s) + 1 + i)%nat by lia.
        apply Hok; lia.
      * rewrite length_app in Hend. cbn [length] in Hend.
        destruct Hend as [[-> ->]|(-> & Hk1 & Hf)]; [left; auto|right].
        split; [reflexivity|]. split; [lia|].
        destruct k as [|k]; [lia|].
        replace (S (S k) - 1)%nat with (S (S k - 1)) by lia.
        cbn [map nth].
        replace (length (trace s) + S (S k - 1))%nat
          with (length (trace s) + 1 + (S k - 1))%nat by lia.
        exact Hf.
    + cbn [negb]. split; [reflexivity|].
      exists 1%nat. split; [simpl; lia|]. split; [reflexivity|].
      split.
      * intros i Hi [Hc|Hc]; [discriminate|lia].
      * right. split; [reflexivity|]. split; [lia|].
        rewrite Nat.add_0_r. exact Ea.
Qed.

Lemma only_false_nil {A} (m : M A) s :
  only_ops (fun _ => False) m -> trace (snd (m s)) = trace s.
Proof.
  intros H. destruct (H s) as (ops & E & F).
  destruct ops as [|o ops]; [rewrite E, app_nil_r; reflexivity|].
  inversion F; contradiction.
Qed.

Lemma only_set_frame_length_i2c (env : nat -> bus_op -> Z) (v : Z) :
  only_ops is_i2c (imx258_set_frame_length env v).
Proof.
  unfold imx258_set_frame_length. destruct (frame_length_shift v) as [sh v'].
  apply only_bind; [apply only_modify; reflexivity|]. intros _.
  apply only_bind; [apply only_write_reg; exact I|]. intros r.
  apply only_if; [apply only_ret | apply only_write_reg; exact I].
Qed.

#[local] Hint Extern 1 (is_i2c _) => exact I : only_ops.

Lemma only_then_put (env : nat -> bus_op -> Z) (m : Z -> M Z) (id : ctrl_id)
    (s : imx258) :
  (forall v, only_ops is_i2c (m v)) ->
  exists w, trace (snd ((v <- ctrl_val id ;; r <- m v ;;
                         call env PmPut ;;; ret r) s))
            = trace s ++ w ++ [PmPut] /\ Forall is_i2c w.
Proof.
  intros Hm. unfold bind at 1, ctrl_val, gets.
  destruct (Hm (cur (ctrls s id)) s) as (w & Ew & Fw).
  unfold bind. destruct (m (cur (ctrls s id)) s) as [r s1].
  simpl in *. exists w. rewrite Ew, <- app_assoc. auto.
Qed.

(** [imx258_set_ctrl] balances its runtime PM reference: it always asks
    [pm_runtime_get_if_in_use]; if the device is not in use it returns 0
    with no further call, otherwise it issues I2C transfers only and then
    exactly one [pm_runtime_put], last. *)
Theorem set_ctrl_pm_balanced (env : nat -> bus_op -> Z) (id : ctrl_id)
    (s : imx258) :
  let (r, s') := imx258_set_ctrl env id s in
  exists ops, trace s' = trace s ++ PmGetIfInUse :: ops /\
    (env (length (trace s)) PmGetIfInUse = 0 -> ops = [] /\ r = 0) /\
    (env (length (trace s)) PmGetIfInUse <> 0 ->
       exists w, ops = w ++ [PmPut] /\ Forall is_i2c w).
Proof.
  unfold imx258_set_ctrl.
  set (pre := if ctrl_id_beq id CID_VBLANK then imx258_adjust_exposure_range
              else ret tt).
  assert (Hpre : trace (snd (pre s)) = trace s).
  { apply only_false_nil. subst pre.
    destruct (ctrl_id_beq id CID_VBLANK);
      [apply only_adjust_exposure_range | apply only_ret]. }
  unfold bind at 1. destruct (pre s) as [u s1]. simpl in Hpre.
  unfold bind at 1, call at 1. rewrite Hpre.
  set (a := env (length (trace s)) PmGetIfInUse).
  set (s2 := set_trace (trace s ++ [PmGetIfInUse]) s1).
  destruct (Z.eqb_spec a 0) as [Ha|Ha].
  - exists []. unfold ret. simpl. split; [reflexivity|].
    split; [auto | intros; contradiction].
  - match goal with
    | |- let (_, _) := ?X s2 in _ =>
        assert (HX : exists w, trace (snd (X s2)) = trace s2 ++ w ++ [PmPut]
                               /\ Forall is_i2c w);
        [ | destruct (X s2) as [r s3] ]
    end.
    { eapply only_then_put. intros v.
      destruct id; eauto 10 using only_set_frame_length_i2c with only_ops. }
    destruct HX as (w & Ew & Fw). simpl in Ew.
    exists (w ++ [PmPut]). rewrite Ew. subst s2. simpl.
    rewrite <- !app_assoc. split; [reflexivity|].
    split; [intros; contradiction|]. intros _. exists w. auto.
Qed.

(** [imx258_suspend] always returns 0 and keeps the streaming flag: a
    streaming sensor gets exactly one write of standby to mode-select, an
    idle one is left untouched. *)
Theorem suspend_stops_streaming (env : nat -> bus_op -> Z) (s : imx258) :
  imx258_suspend env s =
  (0, set_trace (trace s ++ if streaming s
                 then [I2cSend IMX258_REG_MODE_SELECT IMX258_REG_VALUE_08BIT
                                IMX258_MODE_STANDBY]
                 else []) s).
Proof.
  unfold imx258_suspend, imx258_stop_streaming, imx258_write_reg,
    bind, gets, ret, call.
  destruct (streaming s); cbn -[set_trace].
  - case_if; reflexivity.
  - rewrite app_nil_r, set_trace_same. reflexivity.
Qed.

(** Preservation of one field of the device by a computation. *)
Section Preserves.

Variable B : Type.
Variable f : imx258 -> B.
Hypothesis f_trace : forall t s, f (set_trace t s) = f s.
Hypothesis f_ctrls : forall c s, f (set_ctrls c s) = f s.
Hypothesis f_shift : forall n s, f (set_long_exp_shift n s) = f s.

Definition preserves {A} (m : M A) : Prop := forall s, f (snd (m s)) = f s.

Lemma pres_ret {A} (a : A) : preserves (ret a).
Proof. intros s. reflexivity. Qed.

Lemma pres_gets {A} (g : imx258 -> A) : preserves (gets g).
Proof. intros s. reflexivity. Qed.

Lemma pres_call (env : nat -> bus_op -> Z) (op : bus_op) :
  preserves (call env op).
Proof. intros s. apply f_trace. Qed.

Lemma pres_bind {A C} (m : M A) (k : A -> M C) :
  preserves m -> (forall a, preserves (k a)) -> preserves (bind m k).
Proof.
  intros Hm Hk s. unfold bind. specialize (Hm s).
  destruct (m s) as [a s1]. simpl in Hm. rewrite Hk. exact Hm.
Qed.

Lemma pres_if {A} (b : bool) (m1 m2 : M A) :
  preserves m1 -> preserves m2 -> preserves (if b then m1 else m2).
Proof. destruct b; auto. Qed.

Lemma pres_write_reg (env : nat -> bus_op -> Z) (reg len v : Z) :
  preserves (imx258_write_reg env reg len v).
Proof.
  unfold imx258_write_reg. apply pres_if; [apply pres_ret|].
  apply pres_bind; [apply pres_call|]. intros n.
  apply pres_if; apply pres_ret.
Qed.

Lemma pres_write_regs (env : nat -> bus_op -> Z) (regs : list imx258_reg) :
  preserves (imx258_write_regs env regs).
Proof.
  induction regs as [|r regs IH]; simpl; [apply pres_ret|].
  apply pres_bind; [apply pres_write_reg|]. intros a.
  apply pres_if; [exact IH | apply pres_ret].
Qed.

Lemma pres_set_frame_length (env : nat -> bus_op -> Z) (v : Z) :
  preserves (imx258_set_frame_length env v).
Proof.
  unfold imx258_set_frame_length. destruct (frame_length_shift v) as [sh v'].
  apply pres_bind; [intros s; apply f_shift|]. intros _.
  apply pres_bind; [apply pres_write_reg|]. intros r.
  apply pres_if; [apply pres_ret | apply pres_write_reg].
Qed.

Lemma pres_set_ctrl (env : nat -> bus_op -> Z) (id : ctrl_id) :
  preserves (imx258_set_ctrl env id).
Proof.
  unfold imx258_set_ctrl, ctrl_val, imx258_adjust_exposure_range,
    v4l2_ctrl_modify_range.
  apply pres_bind.
  { apply pres_if; [|apply pres_ret].
    apply pres_bind; [apply pres_gets|]. intros s0 s. apply f_ctrls. }
  intros _. apply pres_bind; [apply pres_call|]. intros in_use.
  apply pres_if; [apply pres_ret|].
  apply pres_bind; [apply pres_gets|]. intros v.
  apply pres_bind.
  2: { intros r. apply pres_bind; [apply pres_call | intros; apply pres_ret]. }
  destruct id;
    repeat first [ apply pres_set_frame_length | apply pres_write_reg
                 | apply pres_ret | apply pres_gets
                 | apply pres_bind; [| intros ?] ].
Qed.

Lemma pres_ctrl_handler_setup (env : nat -> bus_op -> Z) (l : list ctrl_id) :
  preserves (v4l2_ctrl_handler_setup env l).
Proof.
  induction l as [|id l IH]; simpl; [apply pres_ret|].
  apply pres_bind; [apply pres_set_ctrl|]. intros r.
  apply pres_if; [exact IH | apply pres_ret].
Qed.

End Preserves.

Lemma start_streaming_preserves (env : nat -> bus_op -> Z) (s : imx258) :
  let s' := snd (imx258_start_streaming env s) in
  streaming s' = streaming s /\ flips_grabbed s' = flips_grabbed s /\
  mode s' = mode s.
Proof.
  assert (H : forall B (f : imx258 -> B),
    (forall t s, f (set_trace t s) = f s) ->
    (forall c s, f (set_ctrls c s) = f s) ->
    (forall n s, f (set_long_exp_shift n s) = f s) ->
    (forall s, f (set_common_regs_written true s) = f s) ->
    preserves B f (imx258_start_streaming env)).
  { intros B f Ht Hc Hn Hw. unfold imx258_start_streaming.
    apply pres_bind; [apply pres_gets|]. intros w.
    apply pres_bind.
    { apply pres_if; [apply pres_ret|].
      apply pres_bind; [apply pres_write_regs; auto|]. intros r.
      apply pres_if; [|apply pres_ret].
      apply pres_bind; [intros s0; apply Hw | intros; apply pres_ret]. }
    intros r. apply pres_if; [apply pres_ret|].
    apply pres_bind; [apply pres_gets|]. intros m.
    apply pres_bind; [apply pres_write_regs; auto|]. intros r'.
    apply pres_if; [apply pres_ret|].
    apply pres_bind; [apply pres_ctrl_handler_setup; auto|]. intros r''.
    apply pres_if; [apply pres_ret | apply pres_write_reg; auto]. }
  split; [|split]; apply H; reflexivity.
Qed.

(** [imx258_resume] does nothing for an idle sensor.  For a streaming one
    it restarts the stream and returns its result; on failure the sensor is
    put back into standby and marked not streaming, and the flips stay as
    they were grabbed. *)
Theorem resume_restarts_or_stops (env : nat -> bus_op -> Z) (s : imx258) :
  let (r, s') := imx258_resume env s in
  (streaming s = false -> r = 0 /\ s' = s) /\
  (streaming s = true ->
     streaming s' = (r =? 0) /\ flips_grabbed s' = flips_grabbed s /\
     let (r0, s1) := imx258_start_streaming env s in
     r = r0 /\
     (r0 = 0 -> s' = s1) /\
     (r0 <> 0 -> trace s' = trace s1 ++
        [I2cSend IMX258_REG_MODE_SELECT IMX258_REG_VALUE_08BIT
                 IMX258_MODE_STANDBY])).
Proof.
  pose proof (start_streaming_preserves env s) as (Hst & Hfl & _).
  unfold imx258_resume, bind at 1 2, gets.
  destruct (streaming s) eqn:Es; cbv beta iota.
  - destruct (imx258_start_streaming env s) as [r0 s1]. simpl in Hst, Hfl.
    destruct (Z.eqb_spec r0 0) as [E0|E0]; cbn [negb].
    + subst r0. unfold ret. split; [discriminate|]. intros _.
      rewrite Hst, Hfl. split; [reflexivity|]. split; [reflexivity|].
      split; [reflexivity|]. split; [auto | contradiction].
    + unfold imx258_stop_streaming, imx258_write_reg, bind, call, modify, ret.
      cbn -[set_trace Z.eqb]. case_if; cbn -[Z.eqb];
      rewrite (proj2 (Z.eqb_neq r0 0) E0);
      (split; [discriminate|]); intros _;
      (split; [reflexivity|]); (split; [exact Hfl|]);
      (split; [reflexivity|]); (split; [contradiction|]); reflexivity.
  - unfold ret. split; [|discriminate]. intros _. auto.
Qed.

Lemma write_regs_healthy (env : nat -> bus_op -> Z) (regs : list imx258_reg)
    (s : imx258) :
  (forall n reg v, env n (I2cSend reg 1 v) = 1 + 2) ->
  imx258_write_regs env regs s =
  (0, set_trace (trace s ++ map reg_write_op regs) s).
Proof.
  intros Hok. revert s.
  induction regs as [|r regs IH]; intros s; simpl.
  - unfold ret. rewrite app_nil_r, set_trace_same. reflexivity.
  - unfold imx258_write_reg, bind, call, ret. change (1 >? 4) with false.
    cbv beta iota. rewrite Hok, Z.eqb_refl. cbv beta iota.
    rewrite IH. simpl. rewrite set_trace_set_trace, <- app_assoc. reflexivity.
Qed.

Lemma only_true {A} (m : M A) s :
  only_ops (fun _ => True) m -> exists ops, trace (snd (m s)) = trace s ++ ops.
Proof. intros H. destruct (H s) as (ops & E & _). eauto. Qed.

Lemma only_weaken (P Q : bus_op -> Prop) {A} (m : M A) :
  (forall op, P op -> Q op) -> only_ops P m -> only_ops Q m.
Proof.
  intros HPQ Hm s. destruct (Hm s) as (ops & E & F).
  exists ops. split; [exact E|]. eapply Forall_impl; eauto.
Qed.

(** After [imx258_power_off], the next [imx258_start_streaming] on a
    working bus rewrites the common registers before the mode's registers
    and marks them written again. *)
Theorem power_off_rewrites_common_regs (env : nat -> bus_op -> Z)
    (s : imx258) :
  (forall n reg v, env n (I2cSend reg 1 v) = 1 + 2) ->
  let '(_, _, s1) := imx258_power_off s in
  let (r, s2) := imx258_start_streaming env s1 in
  common_regs_written s2 = true /\
  exists rest, trace s2 = trace s ++ map reg_write_op mode_common_regs
                          ++ map reg_write_op (reg_list (mode s)) ++ rest.
Proof.
  intros Hok. unfold imx258_power_off, imx258_start_streaming.
  unfold bind at 1 2 3, gets at 1. cbn [common_regs_written set_common_regs_written].
  rewrite write_regs_healthy by exact Hok. cbv beta iota. rewrite Z.eqb_refl.
  unfold bind at 1, modify. cbv beta iota. unfold ret at 1. cbn [negb Z.eqb].
  unfold bind at 1, gets. cbn [mode set_trace set_common_regs_written].
  unfold bind at 1. rewrite write_regs_healthy by exact Hok.
  cbn [negb Z.eqb].
  set (s3 := set_trace _ _).
  unfold bind at 1.
  pose proof (pres_ctrl_handler_setup bool common_regs_written
    (fun _ _ => eq_refl) (fun _ _ => eq_refl) (fun _ _ => eq_refl)
    env imx258_handler_ctrls s3) as Hw.
  destruct (only_true (v4l2_ctrl_handler_setup env imx258_handler_ctrls) s3)
    as [ops Hops].
  { eapply only_weaken; [|apply only_ctrl_handler_setup]. auto. }
  destruct (v4l2_ctrl_handler_setup env imx258_handler_ctrls s3) as [r s4].
  cbn [snd] in Hw, Hops.
  assert (Hs3 : trace s3 = trace s ++ map reg_write_op mode_common_regs
                           ++ map reg_write_op (reg_list (mode s))).
  { subst s3. simpl. rewrite <- app_assoc. reflexivity. }
  destruct (negb (r =? 0)).
  - unfold ret. split; [exact Hw|]. exists ops.
    rewrite Hops, Hs3, <- !app_assoc. reflexivity.
  - pose proof (pres_write_reg bool common_regs_written
      (fun _ _ => eq_refl) env IMX258_REG_MODE_SELECT IMX258_REG_VALUE_08BIT
      IMX258_MODE_STREAMING s4) as Hw'.
    destruct (only_true (imx258_write_reg env IMX258_REG_MODE_SELECT
      IMX258_REG_VALUE_08BIT IMX258_MODE_STREAMING) s4) as [ops' Hops'].
    { apply only_write_reg. exact I. }
    destruct (imx258_write_reg _ _ _ _ s4) as [r' s5]. cbn [snd] in Hw', Hops'.
    cbv beta iota. split; [rewrite Hw', Hw; reflexivity|]. exists (ops ++ ops').
    rewrite Hops', Hops, Hs3, <- !app_assoc. reflexivity.
Qed.

Lemma power_off_rewrites_common_regs_witness :
  (forall n reg v, env_ok n (I2cSend reg 1 v) = 1 + 2) /\
  let '(_, _, s1) := imx258_power_off dev_streaming in
  let (r, s2) := imx258_start_streaming env_ok s1 in
  common_regs_written s2 = true /\
  exists rest, trace s2 = trace dev_streaming ++ map reg_write_op mode_common_regs
                 ++ map reg_write_op (reg_list (mode dev_streaming)) ++ rest.
Proof.
  assert (H : forall n reg v, env_ok n (I2cSend reg 1 v) = 1 + 2)
    by reflexivity.
  split; [exact H|].
  exact (power_off_rewrites_common_regs env_ok dev_streaming H).
Defined.

(** [imx258_set_stream] asked for the state the sensor is already in
    returns 0 and changes nothing: no PM call, no register write. *)
Theorem set_stream_same_state_noop (env : nat -> bus_op -> Z) (s : imx258)
    (enable : Z) :
  Z.b2z (streaming s) = enable -> imx258_set_stream env enable s = (0, s).
Proof.
  intros He. unfold imx258_set_stream, bind, gets, ret.
  rewrite He, Z.eqb_refl. reflexivity.
Qed.

Lemma set_stream_same_state_noop_witness :
  Z.b2z (streaming dev_streaming) = 1 /\
  imx258_set_stream env_ok 1 dev_streaming = (0, dev_streaming).
Proof.
  assert (H : Z.b2z (streaming dev_streaming) = 1) by reflexivity.
  split; [exact H|].
  exact (set_stream_same_state_noop env_ok dev_streaming 1 H).
Defined.
